(** * The book catalogue browser: filtering, pagination and lookup

    A shallow embedding of [utils.js] and of the [BookApp] class of the main
    script, with the properties of the filter, of the "show more" pagination
    and of the lookup by id.

    Conventions of the model.
    - A JavaScript string is a [string]: a sequence of code units below 256
      (the Latin-1 range), on which [toLowerCase] and [trim] are character
      maps that keep the length.
    - A number that counts books or pages is a [Z]; the products and
      differences of the script are exact on them.
    - A property read that may find nothing gives a [value], [Undefined] or a
      string; a call that may raise gives a [completion].
    - The page (the document the script reads and writes through
      [document.querySelector]) is a record of the parts the script touches;
      every selector of the script is taken to find its element.
    - [handle] is one run of one listener; [dispatch] is one event of the
      page, which runs every listener added for it and is not delivered by a
      disabled button. *)

From Stdlib Require Import ZArith Lia Ascii String.
From stdpp Require Import base list strings.

Local Open Scope Z_scope.

(** ** Values and completions *)

Inductive value : Type :=
  | Undefined
  | Str (s : string).

Inductive exn : Type :=
  | TypeError.

Inductive completion (A : Type) : Type :=
  | Returns (a : A)
  | Throws (e : exn).
Arguments Returns {A} a.
Arguments Throws {A} e.

Global Instance completion_ret : MRet completion := fun _ a => Returns a.
Global Instance completion_bind : MBind completion := fun _ _ k m =>
  match m with
  | Returns a => k a
  | Throws e => Throws e
  end.

(** [a === b] on the values of the model. *)
Definition strict_eq (a b : value) : bool :=
  match a, b with
  | Undefined, Undefined => true
  | Str s, Str t => String.eqb s t
  | _, _ => false
  end.

(** ** Strings *)

(** White space and line terminators of the language, below 256: TAB, LF, VT,
    FF, CR, SP and NBSP. *)
Definition isWhiteSpace (c : ascii) : bool :=
  match c with
  | "009" | "010" | "011" | "012" | "013" | " " | "160" => true
  | _ => false
  end%char.

(** Lower case of one code unit: A-Z, and the capital letters of Latin-1
    (192-222 but the multiplication sign 215), move up by 32. *)
Definition toLowerCase_unit (c : ascii) : ascii :=
  let n := N_of_ascii c in
  if ((65 <=? n) && (n <=? 90) ||
      (192 <=? n) && (n <=? 222) && negb (n =? 215))%N
  then ascii_of_N (n + 32)
  else c.

Fixpoint String_toLowerCase (s : string) : string :=
  match s with
  | EmptyString => EmptyString
  | String c s' => String (toLowerCase_unit c) (String_toLowerCase s')
  end.

Fixpoint String_trimStart (s : string) : string :=
  match s with
  | EmptyString => EmptyString
  | String c s' => if isWhiteSpace c then String_trimStart s' else s
  end.

Fixpoint String_trimEnd (s : string) : string :=
  match s with
  | EmptyString => EmptyString
  | String c s' =>
      let r := String_trimEnd s' in
      if isWhiteSpace c && String.eqb r EmptyString then EmptyString
      else String c r
  end.

Definition String_trim (s : string) : string :=
  String_trimEnd (String_trimStart s).

Fixpoint String_startsWith (s sub : string) : bool :=
  match sub, s with
  | EmptyString, _ => true
  | String _ _, EmptyString => false
  | String d sub', String c s' => Ascii.eqb c d && String_startsWith s' sub'
  end.

(** [s.includes(sub)]: [sub] starts at some position of [s]. *)
Fixpoint String_includes (s sub : string) : bool :=
  String_startsWith s sub ||
  match s with
  | EmptyString => false
  | String _ s' => String_includes s' sub
  end.

(** The two string methods the filter calls on a criteria field: on
    [undefined] the property read of the method raises. *)
Definition trim (v : value) : completion string :=
  match v with
  | Undefined => Throws TypeError
  | Str s => Returns (String_trim s)
  end.

Definition toLowerCase (v : value) : completion string :=
  match v with
  | Undefined => Throws TypeError
  | Str s => Returns (String_toLowerCase s)
  end.

(** ** Arrays *)

(** [arr.includes(v)] on an array of strings. *)
Definition Array_includes (arr : list string) (v : value) : bool :=
  match v with
  | Undefined => false
  | Str s => existsb (String.eqb s) arr
  end.

(** [arr.filter(cb)]: the callback runs on the elements in order, and the
    first exception it raises ends the call. *)
Fixpoint Array_filter {A : Type} (cb : A -> completion bool) (arr : list A)
  : completion (list A) :=
  match arr with
  | [] => Returns []
  | x :: arr' =>
      keep ← cb x;
      rest ← Array_filter cb arr';
      Returns (if keep : bool then x :: rest else rest)
  end.

(** [arr.find(cb)]: the first element the callback accepts, [None] for
    [undefined]. *)
Fixpoint Array_find {A : Type} (cb : A -> bool) (arr : list A) : option A :=
  match arr with
  | [] => None
  | x :: arr' => if cb x then Some x else Array_find cb arr'
  end.

(** [arr.slice(start, end)] with integer arguments. *)
Definition relative_index (len i : Z) : Z :=
  if i <? 0 then Z.max (len + i) 0 else Z.min i len.

Definition Array_slice {A : Type} (arr : list A) (start end_ : Z) : list A :=
  let len := Z.of_nat (length arr) in
  let k := relative_index len start in
  let final := relative_index len end_ in
  take (Z.to_nat (Z.max (final - k) 0)) (drop (Z.to_nat k) arr).

(** ** Books and filters *)

Module Book.
Record t : Type := mk {
  id : string;
  title : string;
  author : string;
  image : string;
  description : string;
  published : string;
  genres : list string
}.
End Book.

(** The object [Object.fromEntries(formData)] of the search form: a field
    the form does not send reads as [undefined]. *)
Module Filters.
Record t : Type := mk {
  title : value;
  author : value;
  genre : value
}.
End Filters.

(** ** utils.js: filterBooks and findBookById *)

Definition book_filter (filters : Filters.t) (book : Book.t) : completion bool :=
  let genreMatch :=
    strict_eq (Filters.genre filters) (Str "any") ||
    Array_includes (Book.genres book) (Filters.genre filters) in
  trimmed ← trim (Filters.title filters);
  titleMatch ←
    (if String.eqb trimmed ""
     then Returns true
     else query ← toLowerCase (Filters.title filters);
          Returns (String_includes (String_toLowerCase (Book.title book)) query));
  let authorMatch :=
    strict_eq (Filters.author filters) (Str "any") ||
    strict_eq (Str (Book.author book)) (Filters.author filters) in
  Returns (genreMatch && titleMatch && authorMatch).

Definition filterBooks (books : list Book.t) (filters : Filters.t)
  : completion (list Book.t) :=
  Array_filter (book_filter filters) books.

Definition findBookById (books : list Book.t) (id : string) : option Book.t :=
  Array_find (fun book => String.eqb (Book.id book) id) books.

(** ** utils.js: the presentation helpers *)

(** An object used as a dictionary (the author and genre registries), as the
    list of its entries in the order of [Object.entries]. *)
Definition registry : Type := list (string * string).

(** The names every plain object inherits from [Object.prototype]. *)
Definition Object_prototype_names : list string :=
  ["constructor"; "hasOwnProperty"; "isPrototypeOf"; "propertyIsEnumerable";
   "toLocaleString"; "toString"; "valueOf"; "__proto__";
   "__defineGetter__"; "__defineSetter__"; "__lookupGetter__"; "__lookupSetter__"].

(** What [obj[key]] finds: the text of an entry of the object itself, a
    member the object inherits (a function, or the prototype for
    [__proto__]), or nothing, which reads as [undefined]. *)
Inductive member : Type :=
  | Own (text : string)
  | Inherited (name : string)
  | Missing.

(** [obj[key]]: the entries of the object come first, then the members of
    [Object.prototype]. *)
Definition property (obj : registry) (key : string) : member :=
  match Array_find (fun entry => String.eqb (fst entry) key) obj with
  | Some entry => Own (snd entry)
  | None =>
      if existsb (String.eqb key) Object_prototype_names
      then Inherited key
      else Missing
  end.

(** The text that [createBookElement] assigns to [innerHTML]: the fixed
    template of the card, kept as the three values substituted in it. The
    page parses this text as markup; what a card then shows is the result of
    that parse, of which the model says nothing. *)
Module Markup.
Record t : Type := mk {
  image : string;
  title : string;
  author : member
}.
End Markup.

(** The card of a book: the button built by [createBookElement], with its
    [data-preview] attribute, set as it is, and the text given to its
    [innerHTML]. *)
Module Element.
Record t : Type := mk {
  data_preview : string;
  innerHTML : Markup.t
}.
End Element.

Definition createBookElement (book : Book.t) (authors : registry) : Element.t :=
  {| Element.data_preview := Book.id book;
     Element.innerHTML :=
       {| Markup.image := Book.image book;
          Markup.title := Book.title book;
          Markup.author := property authors (Book.author book) |} |}.

(** An [option] element of a dropdown: its value and its text. *)
Definition populateDropdown (container : list (string * string))
    (items : registry) (defaultOptionText : string) : list (string * string) :=
  container ++ ("any", defaultOptionText) :: items.

(** The "show more" button: its [disabled] flag and the number shown in its
    [list__remaining] span. *)
Module Button.
Record t : Type := mk {
  disabled : bool;
  remaining : Z
}.
End Button.

Definition updateShowMoreButton (matchesLength page booksPerPage : Z) : Button.t :=
  let remainingBooks := matchesLength - page * booksPerPage in
  {| Button.disabled := remainingBooks <=? 0;
     Button.remaining := if remainingBooks >? 0 then remainingBooks else 0 |}.

(** ** The page *)

(** The preview overlay, [data-list-active], with what [showBookPreview]
    writes in it: the source of the two images, and the title, the subtitle
    and the description, written as text ([innerText]). The subtitle is
    kept as its two sources, what the registry of authors gives for the
    author of the book and the publication date whose year it shows; it is
    [None] as long as nothing was written. *)
Module Preview.
Record t : Type := mk {
  open : bool;
  image : string;
  title : string;
  subtitle : option (member * string);
  description : string
}.
End Preview.

(** A listener of the page, by the element and the event it is added to:
    the nine calls of [addEventListener] in [setupEventListeners]. *)
Inductive listener : Type :=
  | search_cancel_click
  | settings_cancel_click
  | header_search_click
  | header_settings_click
  | list_close_click
  | settings_form_submit
  | search_form_submit
  | list_button_click
  | list_items_click.

Module Document.
Record t : Type := mk {
  list_items : list Element.t;
  list_button : Button.t;
  list_message_show : bool;
  list_active : Preview.t;
  search_overlay_open : bool;
  search_genres : list (string * string);
  search_authors : list (string * string);
  settings_overlay_open : bool;
  settings_theme : string;
  color_dark : string;
  color_light : string;
  (** the answer of [window.matchMedia('(prefers-color-scheme: dark)')] *)
  prefers_dark : bool;
  (** the listeners added so far, in the order of their addition *)
  listeners : list listener
}.

Definition set_list_items (v : list Element.t) (d : t) : t :=
  mk v (list_button d) (list_message_show d) (list_active d)
     (search_overlay_open d) (search_genres d) (search_authors d)
     (settings_overlay_open d) (settings_theme d) (color_dark d)
     (color_light d) (prefers_dark d) (listeners d).
Definition set_list_button (v : Button.t) (d : t) : t :=
  mk (list_items d) v (list_message_show d) (list_active d)
     (search_overlay_open d) (search_genres d) (search_authors d)
     (settings_overlay_open d) (settings_theme d) (color_dark d)
     (color_light d) (prefers_dark d) (listeners d).
Definition set_list_message_show (v : bool) (d : t) : t :=
  mk (list_items d) (list_button d) v (list_active d)
     (search_overlay_open d) (search_genres d) (search_authors d)
     (settings_overlay_open d) (settings_theme d) (color_dark d)
     (color_light d) (prefers_dark d) (listeners d).
Definition set_list_active (v : Preview.t) (d : t) : t :=
  mk (list_items d) (list_button d) (list_message_show d) v
     (search_overlay_open d) (search_genres d) (search_authors d)
     (settings_overlay_open d) (settings_theme d) (color_dark d)
     (color_light d) (prefers_dark d) (listeners d).
Definition set_search_overlay_open (v : bool) (d : t) : t :=
  mk (list_items d) (list_button d) (list_message_show d) (list_active d)
     v (search_genres d) (search_authors d)
     (settings_overlay_open d) (settings_theme d) (color_dark d)
     (color_light d) (prefers_dark d) (listeners d).
Definition set_search_genres (v : list (string * string)) (d : t) : t :=
  mk (list_items d) (list_button d) (list_message_show d) (list_active d)
     (search_overlay_open d) v (search_authors d)
     (settings_overlay_open d) (settings_theme d) (color_dark d)
     (color_light d) (prefers_dark d) (listeners d).
Definition set_search_authors (v : list (string * string)) (d : t) : t :=
  mk (list_items d) (list_button d) (list_message_show d) (list_active d)
     (search_overlay_open d) (search_genres d) v
     (settings_overlay_open d) (settings_theme d) (color_dark d)
     (color_light d) (prefers_dark d) (listeners d).
Definition set_settings_overlay_open (v : bool) (d : t) : t :=
  mk (list_items d) (list_button d) (list_message_show d) (list_active d)
     (search_overlay_open d) (search_genres d) (search_authors d)
     v (settings_theme d) (color_dark d)
     (color_light d) (prefers_dark d) (listeners d).
Definition set_settings_theme (v : string) (d : t) : t :=
  mk (list_items d) (list_button d) (list_message_show d) (list_active d)
     (search_overlay_open d) (search_genres d) (search_authors d)
     (settings_overlay_open d) v (color_dark d)
     (color_light d) (prefers_dark d) (listeners d).
Definition set_colors (dark light : string) (d : t) : t :=
  mk (list_items d) (list_button d) (list_message_show d) (list_active d)
     (search_overlay_open d) (search_genres d) (search_authors d)
     (settings_overlay_open d) (settings_theme d) dark
     light (prefers_dark d) (listeners d).
Definition set_listeners (v : list listener) (d : t) : t :=
  mk (list_items d) (list_button d) (list_message_show d) (list_active d)
     (search_overlay_open d) (search_genres d) (search_authors d)
     (settings_overlay_open d) (settings_theme d) (color_dark d)
     (color_light d) (prefers_dark d) v.
End Document.

(** ** The BookApp object *)

Module BookApp.
Record t : Type := mk {
  books : list Book.t;
  authors : registry;
  genres : registry;
  booksPerPage : Z;
  page : Z;
  matches : list Book.t
}.

Definition set_page (v : Z) (this : t) : t :=
  mk (books this) (authors this) (genres this) (booksPerPage this) v (matches this).
Definition set_matches (v : list Book.t) (this : t) : t :=
  mk (books this) (authors this) (genres this) (booksPerPage this) (page this) v.
End BookApp.

(** The state a method of the class runs in: the object and the page. *)
Record State : Type := mkState {
  this : BookApp.t;
  document : Document.t
}.

Definition on_document (f : Document.t -> Document.t) (st : State) : State :=
  mkState (this st) (f (document st)).
Definition on_this (f : BookApp.t -> BookApp.t) (st : State) : State :=
  mkState (f (this st)) (document st).

Definition length_of {A : Type} (arr : list A) : Z := Z.of_nat (length arr).

(** The cards of the books of [arr] from index [start] to index [end_]. *)
Definition cards (st : State) (arr : list Book.t) (start end_ : Z) : list Element.t :=
  map (fun book => createBookElement book (BookApp.authors (this st)))
      (Array_slice arr start end_).

(** *** The methods of the class *)

Definition renderBooks (st : State) : State :=
  let starting :=
    cards st (BookApp.matches (this st)) 0 (BookApp.booksPerPage (this st)) in
  on_document
    (fun d => Document.set_list_items (Document.list_items d ++ starting) d) st.

Definition populateGenres (st : State) : State :=
  on_document
    (fun d => Document.set_search_genres
                (populateDropdown (Document.search_genres d)
                                  (BookApp.genres (this st)) "All Genres") d) st.

Definition populateAuthors (st : State) : State :=
  on_document
    (fun d => Document.set_search_authors
                (populateDropdown (Document.search_authors d)
                                  (BookApp.authors (this st)) "All Authors") d) st.

Definition setupTheme (st : State) : State :=
  on_document
    (fun d =>
       if Document.prefers_dark d
       then Document.set_colors "255, 255, 255" "10, 10, 20"
              (Document.set_settings_theme "night" d)
       else Document.set_colors "10, 10, 20" "255, 255, 255"
              (Document.set_settings_theme "day" d)) st.

(** The method [updateShowMoreButton] of the class, which passes the state
    of the session to the function of the same name of utils.js. *)
Definition updateShowMoreButton_method (st : State) : State :=
  on_document
    (Document.set_list_button
       (updateShowMoreButton (length_of (BookApp.matches (this st)))
                             (BookApp.page (this st))
                             (BookApp.booksPerPage (this st)))) st.

(** The listeners of one call of [setupEventListeners], in its order. *)
Definition listeners_of_setup : list listener :=
  [search_cancel_click; settings_cancel_click; header_search_click;
   header_settings_click; list_close_click; settings_form_submit;
   search_form_submit; list_button_click; list_items_click].

(** [setupEventListeners] adds its nine listeners to the page and refreshes
    the button. Each call adds them anew: the bound methods and the arrow
    functions are new functions at every call, so the page keeps them all. *)
Definition setupEventListeners (st : State) : State :=
  let st :=
    on_document
      (fun d =>
         Document.set_listeners (Document.listeners d ++ listeners_of_setup) d)
      st in
  updateShowMoreButton_method st.

Definition init (st : State) : State :=
  setupEventListeners (setupTheme (populateAuthors (populateGenres (renderBooks st)))).

(** [new BookApp({ books, authors, genres, booksPerPage })] on the page [d]. *)
Definition constructor (books : list Book.t) (authors genres : registry)
    (booksPerPage : Z) (d : Document.t) : State :=
  init (mkState (BookApp.mk books authors genres booksPerPage 1 books) d).

(** The script: it builds the object, and calls [init] on it once more. The
    data, [books], [authors], [genres] and [BOOKS_PER_PAGE], come from the
    data module. *)
Definition script (books : list Book.t) (authors genres : registry)
    (BOOKS_PER_PAGE : Z) (d : Document.t) : State :=
  init (constructor books authors genres BOOKS_PER_PAGE d).

Definition handleThemeChange (theme : value) (st : State) : State :=
  on_document
    (fun d =>
       Document.set_settings_overlay_open false
         (if strict_eq theme (Str "night")
          then Document.set_colors "255, 255, 255" "10, 10, 20" d
          else Document.set_colors "10, 10, 20" "255, 255, 255" d)) st.

Definition renderBookList (books : list Book.t) (st : State) : State :=
  let fragment := cards st books 0 (BookApp.booksPerPage (this st)) in
  on_document (Document.set_list_items ([] ++ fragment)) st.

(** [handleSearch], from the filters read in the form. When [filterBooks]
    raises, the method ends there: the page number is already 1 and the rest
    is as it was. *)
Definition handleSearch (filters : Filters.t) (st : State) : State * completion unit :=
  let st := on_this (BookApp.set_page 1) st in
  match filterBooks (BookApp.books (this st)) filters with
  | Throws e => (st, Throws e)
  | Returns result =>
      let st := on_this (BookApp.set_matches result) st in
      let st :=
        on_document
          (Document.set_list_message_show
             (length_of (BookApp.matches (this st)) <? 1)) st in
      let st := renderBookList (BookApp.matches (this st)) st in
      let st := updateShowMoreButton_method st in
      (on_document (Document.set_search_overlay_open false) st, Returns tt)
  end.

Definition showMoreBooks (st : State) : State :=
  let page := BookApp.page (this st) in
  let booksPerPage := BookApp.booksPerPage (this st) in
  let fragment :=
    cards st (BookApp.matches (this st))
          (page * booksPerPage) ((page + 1) * booksPerPage) in
  let st :=
    on_document
      (fun d => Document.set_list_items (Document.list_items d ++ fragment) d) st in
  let st := on_this (BookApp.set_page (BookApp.page (this st) + 1)) st in
  updateShowMoreButton_method st.

(** A node of the path of a click: what [node?.dataset?.preview] reads. *)
Definition node : Type := value.

Definition truthy (v : value) : bool :=
  match v with
  | Undefined => false
  | Str s => negb (String.eqb s "")
  end.

(** The loop of [showBookPreview] over the path, from the value of [active]
    at its start. *)
Fixpoint find_active (books : list Book.t) (active : option Book.t)
    (pathArray : list node) : option Book.t :=
  match pathArray with
  | [] => active
  | preview :: rest =>
      match active with
      | Some _ => active
      | None =>
          let active :=
            match preview with
            | Str id => if truthy preview then findBookById books id else None
            | Undefined => None
            end in
          find_active books active rest
      end
  end.

Definition showBookPreview (pathArray : list node) (st : State) : State :=
  match find_active (BookApp.books (this st)) None pathArray with
  | Some active =>
      on_document
        (Document.set_list_active
           {| Preview.open := true;
              Preview.image := Book.image active;
              Preview.title := Book.title active;
              Preview.subtitle :=
                Some (property (BookApp.authors (this st)) (Book.author active),
                      Book.published active);
              Preview.description := Book.description active |}) st
  | None => st
  end.

(** The listeners that [setupEventListeners] writes in place. *)
Definition searchCancel (st : State) : State :=
  on_document (Document.set_search_overlay_open false) st.
Definition settingsCancel (st : State) : State :=
  on_document (Document.set_settings_overlay_open false) st.
Definition headerSearch (st : State) : State :=
  on_document (Document.set_search_overlay_open true) st.
Definition headerSettings (st : State) : State :=
  on_document (Document.set_settings_overlay_open true) st.
Definition listClose (st : State) : State :=
  on_document
    (fun d =>
       let a := Document.list_active d in
       Document.set_list_active
         (Preview.mk false (Preview.image a) (Preview.title a)
            (Preview.subtitle a) (Preview.description a)) d) st.

(** *** Events *)

(** What the page reports to the object, with what the handler reads from
    the event. *)
Inductive event : Type :=
  | SearchSubmitted (filters : Filters.t)
  | ShowMoreClicked
  | CardClicked (pathArray : list node)
  | ThemeSubmitted (theme : value)
  | SearchCancelClicked
  | SettingsCancelClicked
  | HeaderSearchClicked
  | HeaderSettingsClicked
  | ListCloseClicked.

(** One run of the listener of an event: the call of one handler. *)
Definition handle (ev : event) (st : State) : State * completion unit :=
  match ev with
  | SearchSubmitted filters => handleSearch filters st
  | ShowMoreClicked => (showMoreBooks st, Returns tt)
  | CardClicked pathArray => (showBookPreview pathArray st, Returns tt)
  | ThemeSubmitted theme => (handleThemeChange theme st, Returns tt)
  | SearchCancelClicked => (searchCancel st, Returns tt)
  | SettingsCancelClicked => (settingsCancel st, Returns tt)
  | HeaderSearchClicked => (headerSearch st, Returns tt)
  | HeaderSettingsClicked => (headerSettings st, Returns tt)
  | ListCloseClicked => (listClose st, Returns tt)
  end.

(** The listener [l] is one for the event [ev]. *)
Definition listens_to (l : listener) (ev : event) : bool :=
  match l, ev with
  | search_form_submit, SearchSubmitted _ => true
  | list_button_click, ShowMoreClicked => true
  | list_items_click, CardClicked _ => true
  | settings_form_submit, ThemeSubmitted _ => true
  | search_cancel_click, SearchCancelClicked => true
  | settings_cancel_click, SettingsCancelClicked => true
  | header_search_click, HeaderSearchClicked => true
  | header_settings_click, HeaderSettingsClicked => true
  | list_close_click, ListCloseClicked => true
  | _, _ => false
  end.

(** The listeners [ls] on the event [ev], one after the other in their
    order; an exception of one of them does not keep the next from running.
    The result has the completion of each run. *)
Fixpoint run_listeners (ev : event) (ls : list listener) (st : State)
  : State * list (completion unit) :=
  match ls with
  | [] => (st, [])
  | l :: ls' =>
      if listens_to l ev
      then let r := handle ev st in
           let rs := run_listeners ev ls' r.1 in
           (rs.1, r.2 :: rs.2)
      else run_listeners ev ls' st
  end.

(** The page delivers no click on a button that is disabled; the "show
    more" button is the one button the script disables. *)
Definition delivered (ev : event) (st : State) : bool :=
  match ev with
  | ShowMoreClicked => negb (Button.disabled (Document.list_button (document st)))
  | _ => true
  end.

(** One event of the page: when it is delivered, every listener added for
    it runs, as many times as it was added. The listeners to run are those of
    the page when the event starts. *)
Definition dispatch (ev : event) (st : State) : State * list (completion unit) :=
  if delivered ev st
  then run_listeners ev (Document.listeners (document st)) st
  else (st, []).

(** The states of a session: the state the script leaves, then one handler
    run after the other. *)
Inductive reachable (start : State) : State -> Prop :=
  | reachable_start : reachable start start
  | reachable_step st ev :
      reachable start st -> reachable start (handle ev st).1.

(** ** The words of the specification *)

Module Spec.

(** *** Filter Engine *)

(** A query is white space only (the empty query too). *)
Definition whitespace_only (query : string) : Prop :=
  ∀ c, In c (list_ascii_of_string query) → isWhiteSpace c = true.

(** [title] contains [query] as a case-insensitive substring: some part of
    [title] is [query] up to the case of the letters. *)
Definition contains_ignoring_case (title query : string) : Prop :=
  ∃ before part after,
    title = before +:+ part +:+ after ∧
    String_toLowerCase part = String_toLowerCase query.

Definition genre_holds (genreId : string) (book : Book.t) : Prop :=
  genreId = "any" ∨ In genreId (Book.genres book).

Definition title_holds (titleQuery : string) (book : Book.t) : Prop :=
  whitespace_only titleQuery ∨ contains_ignoring_case (Book.title book) titleQuery.

Definition author_holds (authorId : string) (book : Book.t) : Prop :=
  authorId = "any" ∨ authorId = Book.author book.

Definition satisfies (titleQuery authorId genreId : string) (book : Book.t) : Prop :=
  genre_holds genreId book ∧ title_holds titleQuery book ∧ author_holds authorId book.

(** [kept] is exactly the elements of [all] that satisfy [P], each one as
    often as in [all] and in the order of [all]. *)
Inductive exactly_those {A : Type} (P : A → Prop) : list A → list A → Prop :=
  | exactly_nil : exactly_those P [] []
  | exactly_keep x all kept :
      P x → exactly_those P all kept → exactly_those P (x :: all) (x :: kept)
  | exactly_drop x all kept :
      ¬ P x → exactly_those P all kept → exactly_those P (x :: all) kept.

(** *** Pagination Controller *)

Definition remainingCount (matchesLength currentPage pageSize : Z) : Z :=
  Z.max 0 (matchesLength - currentPage * pageSize).

Definition canShowMore (matchesLength currentPage pageSize : Z) : Prop :=
  remainingCount matchesLength currentPage pageSize > 0.

(** [batch] is [matches[currentPage*pageSize .. (currentPage+1)*pageSize)]
    clipped to the length of [matches]: its element [i], for [i] below
    [pageSize], is the element [currentPage*pageSize + i] of [matches] when
    there is one, and it has no other element. *)
Definition is_nextPageSlice {A : Type} (matches : list A)
    (currentPage pageSize : Z) (batch : list A) : Prop :=
  ∀ i : nat,
    batch !! i =
    if decide (Z.of_nat i < pageSize)
    then matches !! Z.to_nat (currentPage * pageSize + Z.of_nat i)
    else None.

(** *** Lookup Service *)

(** [found] is the first book of [books] with the id [id]. *)
Definition first_with_id (books : list Book.t) (id : string) (found : Book.t) : Prop :=
  ∃ before after,
    books = before ++ found :: after ∧
    Book.id found = id ∧
    ∀ book, In book before → Book.id book ≠ id.

(** *** Session *)

(** [matches] is a part of [allBooks], in the order of [allBooks]. *)
Definition session_invariant (st : State) : Prop :=
  sublist (BookApp.matches (this st)) (BookApp.books (this st)).

End Spec.

(** The two books of the scenario of the specification. *)
Definition dune : Book.t :=
  Book.mk "1" "Dune" "a1" "" "" "" ["sf"].
Definition hobbit : Book.t :=
  Book.mk "2" "Hobbit" "a2" "" "" "" ["fantasy"].

(** A page before the script runs: an empty list, closed overlays. *)
Definition blank_page : Document.t :=
  {| Document.list_items := [];
     Document.list_button := Button.mk false 0;
     Document.list_message_show := false;
     Document.list_active := Preview.mk false "" "" None "";
     Document.search_overlay_open := false;
     Document.search_genres := [];
     Document.search_authors := [];
     Document.settings_overlay_open := false;
     Document.settings_theme := "day";
     Document.color_dark := "10, 10, 20";
     Document.color_light := "255, 255, 255";
     Document.prefers_dark := false;
     Document.listeners := [] |}.

(** A session on four books, two per page, and on five books. *)
Definition emma : Book.t :=
  Book.mk "3" "Emma" "a3" "" "" "" ["novel"].
Definition ulysses : Book.t :=
  Book.mk "4" "Ulysses" "a4" "" "" "" ["novel"].
Definition walden : Book.t :=
  Book.mk "5" "Walden" "a5" "" "" "" ["essay"].

Definition four_books : State :=
  script [dune; hobbit; emma; ulysses] [("a1", "Frank Herbert")] [] 2 blank_page.
Definition five_books : State :=
  script [dune; hobbit; emma; ulysses; walden] [("a1", "Frank Herbert")] [] 2 blank_page.

(** ** The page against the session *)

(** The list shows the cards of the matches up to the current page, and
    nothing else. *)
Definition displayed_in_sync (st : State) : Prop :=
  Document.list_items (document st) =
  cards st (BookApp.matches (this st)) 0
        (BookApp.page (this st) * BookApp.booksPerPage (this st)).

(** The button is as [updateShowMoreButton] leaves it for the matches and
    the page number of the session. *)
Definition button_in_sync (st : State) : Prop :=
  Document.list_button (document st) =
  updateShowMoreButton (length_of (BookApp.matches (this st)))
                       (BookApp.page (this st))
                       (BookApp.booksPerPage (this st)).

(** The session on five books after a search that keeps them all. *)
Definition five_books_searched : State :=
  (handle (SearchSubmitted (Filters.mk (Str "") (Str "any") (Str "any")))
          five_books).1.

(** * Properties *)

(** ** Strings *)

Section strings.
Implicit Types s t u : string.

Lemma append_cons c s t : String c s +:+ t = String c (s +:+ t).
Proof. reflexivity. Qed.

Lemma startsWith_spec s sub :
  String_startsWith s sub = true ↔ ∃ after, s = sub +:+ after.
Proof.
  revert s. induction sub as [|d sub IH]; intros s.
  - destruct s; simpl; split; eauto.
  - destruct s as [|c s]; simpl.
    + split; [discriminate | intros [after H]; discriminate].
    + rewrite andb_true_iff, Ascii.eqb_eq, IH. split.
      * intros [-> [after ->]]. by exists after.
      * intros [after H]. rewrite append_cons in H. injection H as -> ->. eauto.
Qed.

Lemma includes_spec s sub :
  String_includes s sub = true ↔ ∃ before after, s = before +:+ sub +:+ after.
Proof.
  induction s as [|c s IH]; cbn [String_includes];
    rewrite orb_true_iff, startsWith_spec.
  - split.
    + intros [[after H]|H]; [|discriminate]. by exists "", after.
    + intros ([|c before] & after & H); [left; by exists after|discriminate].
  - rewrite IH. split.
    + intros [[after H]|(before & after & ->)].
      * by exists "", after.
      * by exists (String c before), after.
    + intros ([|c' before] & after & H).
      * left. by exists after.
      * right. rewrite append_cons in H. injection H as -> ->. eauto.
Qed.

Lemma toLowerCase_append s t :
  String_toLowerCase (s +:+ t) = String_toLowerCase s +:+ String_toLowerCase t.
Proof.
  induction s as [|c s IH]; [done|].
  rewrite append_cons. simpl. by rewrite IH, append_cons.
Qed.

Lemma toLowerCase_split s t u :
  String_toLowerCase s = t +:+ u →
  ∃ s1 s2, s = s1 +:+ s2 ∧ String_toLowerCase s1 = t ∧ String_toLowerCase s2 = u.
Proof.
  revert s. induction t as [|d t IH]; intros s H.
  - by exists "", s.
  - destruct s as [|c s]; [discriminate|].
    rewrite append_cons in H. simpl in H. injection H as Hc H.
    destruct (IH _ H) as (s1 & s2 & -> & <- & <-).
    exists (String c s1), s2. simpl. by rewrite Hc.
Qed.

(** The substring test of the filter is the containment of the
    specification. *)
Lemma includes_ignoring_case title query :
  String_includes (String_toLowerCase title) (String_toLowerCase query) = true ↔
  Spec.contains_ignoring_case title query.
Proof.
  rewrite includes_spec. split.
  - intros (before & after & H).
    apply toLowerCase_split in H as (s1 & s23 & -> & _ & H).
    apply toLowerCase_split in H as (s2 & s3 & -> & H & _).
    by exists s1, s2, s3.
  - intros (before & part & after & -> & H).
    exists (String_toLowerCase before), (String_toLowerCase after).
    by rewrite !toLowerCase_append, H.
Qed.

Lemma whitespace_only_cons c s :
  Spec.whitespace_only (String c s) ↔
  isWhiteSpace c = true ∧ Spec.whitespace_only s.
Proof.
  unfold Spec.whitespace_only. simpl. split.
  - intros H. split; [apply H; by left | intros d Hd; apply H; by right].
  - intros [Hc H] d [<-|Hd]; auto.
Qed.

Lemma trimEnd_empty s :
  String_trimEnd s = "" ↔ Spec.whitespace_only s.
Proof.
  induction s as [|c s IH]; simpl.
  - split; [intros _ c [] | done].
  - rewrite whitespace_only_cons, <- IH.
    destruct (isWhiteSpace c); simpl.
    + destruct (String.eqb_spec (String_trimEnd s) "") as [E|E].
      * by split.
      * split; [discriminate | intros [_ ?]; contradiction].
    + split; [discriminate | intros [? _]; discriminate].
Qed.

(** The test for an empty query of the filter is the one of the
    specification. *)
Lemma trim_empty s :
  String_trim s = "" ↔ Spec.whitespace_only s.
Proof.
  unfold String_trim. induction s as [|c s IH]; simpl.
  - split; [intros _ c [] | done].
  - destruct (isWhiteSpace c) eqn:Hc.
    + rewrite IH, whitespace_only_cons, Hc. tauto.
    + apply trimEnd_empty.
Qed.

End strings.

(** ** The filter *)

Section filter.
Implicit Types (book : Book.t) (books : list Book.t) (t a g : string).

Lemma Array_includes_In (arr : list string) g :
  Array_includes arr (Str g) = true ↔ In g arr.
Proof.
  simpl. rewrite existsb_exists. split.
  - intros (x & Hx & E). apply String.eqb_eq in E. by subst.
  - intros H. exists g. by rewrite String.eqb_refl.
Qed.

(** With a title in the criteria the test of a book does not raise; this is
    its result, whatever the two other fields are. *)
Lemma book_filter_title t (author genre : value) book :
  book_filter (Filters.mk (Str t) author genre) book =
  Returns
    ((strict_eq genre (Str "any") || Array_includes (Book.genres book) genre) &&
     (String.eqb (String_trim t) "" ||
      String_includes (String_toLowerCase (Book.title book)) (String_toLowerCase t)) &&
     (strict_eq author (Str "any") || strict_eq (Str (Book.author book)) author)).
Proof.
  unfold book_filter. simpl.
  by destruct (String.eqb (String_trim t) "").
Qed.

Lemma genre_test g book :
  strict_eq (Str g) (Str "any") || Array_includes (Book.genres book) (Str g) = true
  ↔ Spec.genre_holds g book.
Proof.
  unfold Spec.genre_holds.
  rewrite orb_true_iff, Array_includes_In. simpl. by rewrite String.eqb_eq.
Qed.

Lemma author_test a book :
  strict_eq (Str a) (Str "any") || strict_eq (Str (Book.author book)) (Str a) = true
  ↔ Spec.author_holds a book.
Proof.
  unfold Spec.author_holds. simpl.
  rewrite orb_true_iff, !String.eqb_eq. split; intros [?|?]; auto.
Qed.

Lemma title_test t book :
  String.eqb (String_trim t) "" ||
  String_includes (String_toLowerCase (Book.title book)) (String_toLowerCase t) = true
  ↔ Spec.title_holds t book.
Proof.
  unfold Spec.title_holds.
  by rewrite orb_true_iff, String.eqb_eq, trim_empty, includes_ignoring_case.
Qed.

(** The test of a book, on full criteria, decides the conjunction of the
    specification. *)
Lemma book_filter_satisfies t a g book :
  ∃ keep, book_filter (Filters.mk (Str t) (Str a) (Str g)) book = Returns keep ∧
          (keep = true ↔ Spec.satisfies t a g book).
Proof.
  eexists. split; [apply book_filter_title|].
  unfold Spec.satisfies.
  rewrite !andb_true_iff, genre_test, title_test, author_test. tauto.
Qed.

(** A callback that never raises and decides [P] makes [filter] return
    exactly the elements that satisfy [P]. *)
Lemma Array_filter_exactly {A : Type} (cb : A → completion bool) (P : A → Prop)
    (arr : list A) :
  (∀ x, ∃ keep, cb x = Returns keep ∧ (keep = true ↔ P x)) →
  ∃ kept, Array_filter cb arr = Returns kept ∧ Spec.exactly_those P arr kept.
Proof.
  intros Hcb. induction arr as [|x arr (kept & E & IH)]; simpl.
  - exists []. split; [done | constructor].
  - destruct (Hcb x) as (keep & -> & Hkeep). simpl. rewrite E. simpl.
    destruct keep; eexists; (split; [reflexivity|]).
    + apply Spec.exactly_keep; [by apply Hkeep | done].
    + apply Spec.exactly_drop; [|done]. intros HP. by apply Hkeep in HP.
Qed.

(** What [filter] returns is a part of the array, in its order. *)
Lemma Array_filter_sublist {A : Type} (cb : A → completion bool) (arr kept : list A) :
  Array_filter cb arr = Returns kept → sublist kept arr.
Proof.
  revert kept. induction arr as [|x arr IH]; simpl; intros kept H.
  - injection H as <-. constructor.
  - destruct (cb x) as [keep|]; [|discriminate]. simpl in H.
    destruct (Array_filter cb arr) as [rest|]; [|discriminate]. simpl in H.
    injection H as <-.
    destruct keep; [apply sublist_skip | apply sublist_cons]; by apply IH.
Qed.

Lemma exactly_those_sublist {A : Type} (P : A → Prop) (arr kept : list A) :
  Spec.exactly_those P arr kept → sublist kept arr.
Proof. induction 1; [constructor | by apply sublist_skip | by apply sublist_cons]. Qed.

Lemma exactly_those_In {A : Type} (P : A → Prop) (arr kept : list A) :
  Spec.exactly_those P arr kept → ∀ x, In x kept ↔ In x arr ∧ P x.
Proof.
  induction 1 as [|y arr kept Hy _ IH|y arr kept Hy _ IH]; intros x; simpl.
  - tauto.
  - rewrite IH. split; [intros [<-|[? ?]]; auto | tauto].
  - rewrite IH. split; [tauto | intros [[<-|?] ?]; [contradiction | auto]].
Qed.

Lemma filterBooks_title_returns books t (author genre : value) :
  ∃ kept, filterBooks books (Filters.mk (Str t) author genre) = Returns kept.
Proof.
  unfold filterBooks. induction books as [|book books [kept E]]; simpl.
  - by eexists.
  - rewrite book_filter_title. simpl. rewrite E. simpl. by eexists.
Qed.

End filter.

(** ** Claims on the filter *)

(** C1, as the code has it: with the title field present, [filterBooks]
    returns a list for every book list, whatever the author and genre
    fields are; an absent author or genre is not read as "any", it matches
    no book and the list returned is empty. With the title field absent,
    [filterBooks] returns the empty list on the empty book list and raises a
    TypeError on every book list that is not empty. *)
Theorem filterBooks_absent_fields :
  (∀ books t author genre,
     ∃ kept, filterBooks books (Filters.mk (Str t) author genre) = Returns kept) ∧
  (∀ books t author,
     filterBooks books (Filters.mk (Str t) author Undefined) = Returns []) ∧
  (∀ books t genre,
     filterBooks books (Filters.mk (Str t) Undefined genre) = Returns []) ∧
  (∀ author genre,
     filterBooks [] (Filters.mk Undefined author genre) = Returns []) ∧
  (∀ book books author genre,
     filterBooks (book :: books) (Filters.mk Undefined author genre)
     = Throws TypeError).
Proof.
  repeat split.
  - intros. apply filterBooks_title_returns.
  - intros books t author. unfold filterBooks.
    induction books as [|book books IH]; [done|].
    simpl. rewrite book_filter_title, IH. done.
  - intros books t genre. unfold filterBooks.
    induction books as [|book books IH]; [done|].
    simpl. rewrite book_filter_title, IH. simpl.
    by rewrite andb_false_r.
Qed.

(** C1 fails as it is stated: without the title field the filter raises on
    a list of one book, and without the author field it keeps no book where
    the default "any" would keep the book. *)
Lemma filterBooks_missing_title_raises :
  filterBooks [dune] (Filters.mk Undefined (Str "any") (Str "any"))
  = Throws TypeError ∧
  (¬ ∃ kept, filterBooks [dune] (Filters.mk Undefined (Str "any") (Str "any"))
             = Returns kept) ∧
  filterBooks [dune] (Filters.mk (Str "") Undefined (Str "any")) = Returns [] ∧
  filterBooks [dune] (Filters.mk (Str "") (Str "any") (Str "any")) = Returns [dune].
Proof.
  repeat split. intros [kept H]. discriminate H.
Qed.

(** C3: on full criteria, [filterBooks] returns exactly the books for which
    the genre is "any" or one of the book's genres, and the title query is
    white space only or a part of the title up to case, and the author is
    "any" or the book's author; in the scenario of the two books, the query
    "du" returns the book "1" alone. *)
Theorem filterBooks_conjunction :
  (∀ books titleQuery authorId genreId,
     ∃ kept,
       filterBooks books (Filters.mk (Str titleQuery) (Str authorId) (Str genreId))
       = Returns kept ∧
       Spec.exactly_those (Spec.satisfies titleQuery authorId genreId) books kept) ∧
  filterBooks [dune; hobbit] (Filters.mk (Str "du") (Str "any") (Str "any"))
  = Returns [dune].
Proof.
  split; [|reflexivity].
  intros. apply Array_filter_exactly. intros book. apply book_filter_satisfies.
Qed.

(** C5: the criteria with the empty title query and "any" for the author
    and the genre return the book list as it is. *)
Theorem filterBooks_identity :
  ∀ books,
    filterBooks books (Filters.mk (Str "") (Str "any") (Str "any")) = Returns books.
Proof.
  unfold filterBooks. induction books as [|book books IH]; [done|].
  cbn [Array_filter]. by rewrite book_filter_title, IH.
Qed.

(** C10: the trimmed query only decides whether the query is empty. When it
    is not, a book is kept exactly when its title contains the query as it
    was typed, white space included, up to case (and its genre and author
    agree); so " du " is not found in "Dune", which "du" is. *)
Theorem filterBooks_untrimmed_query :
  (∀ books titleQuery authorId genreId,
     String_trim titleQuery ≠ "" →
     ∃ kept,
       filterBooks books (Filters.mk (Str titleQuery) (Str authorId) (Str genreId))
       = Returns kept ∧
       Spec.exactly_those
         (λ book, Spec.genre_holds genreId book ∧
                  Spec.contains_ignoring_case (Book.title book) titleQuery ∧
                  Spec.author_holds authorId book)
         books kept) ∧
  String_trim " du " = "du" ∧
  ¬ Spec.contains_ignoring_case "Dune" " du " ∧
  filterBooks [dune; hobbit] (Filters.mk (Str " du ") (Str "any") (Str "any"))
  = Returns [] ∧
  filterBooks [dune; hobbit] (Filters.mk (Str "du") (Str "any") (Str "any"))
  = Returns [dune].
Proof.
  split; [|repeat split].
  - intros books t a g Ht. apply Array_filter_exactly. intros book.
    eexists. split; [apply book_filter_title|].
    apply String.eqb_neq in Ht. rewrite Ht, orb_false_l.
    rewrite !andb_true_iff, genre_test, author_test, includes_ignoring_case.
    tauto.
  - intros H. apply includes_ignoring_case in H. discriminate H.
Qed.

Lemma filterBooks_untrimmed_query_witness :
  String_trim " du " ≠ "" ∧
  ∃ kept,
    filterBooks [dune; hobbit] (Filters.mk (Str " du ") (Str "any") (Str "any"))
    = Returns kept ∧
    Spec.exactly_those
      (λ book, Spec.genre_holds "any" book ∧
               Spec.contains_ignoring_case (Book.title book) " du " ∧
               Spec.author_holds "any" book)
      [dune; hobbit] kept.
Proof.
  split.
  - discriminate.
  - apply (proj1 filterBooks_untrimmed_query [dune; hobbit] " du " "any" "any").
    discriminate.
Defined.

(** ** Pagination *)

Section pagination.
Implicit Types (st : State) (len page pageSize : Z).

(** C6: the number the button shows is [max(0, length - page * pageSize)],
    never negative, and the button is enabled exactly when that number is
    positive; for 5 matches, page 1 and 2 books per page the number is 3 and
    the button is enabled. *)
Theorem updateShowMoreButton_remaining :
  (∀ len page pageSize,
     let button := updateShowMoreButton len page pageSize in
     Button.remaining button = Spec.remainingCount len page pageSize ∧
     0 ≤ Button.remaining button ∧
     (Button.disabled button = false ↔ Spec.canShowMore len page pageSize)) ∧
  (∀ st,
     Document.list_button (document (updateShowMoreButton_method st)) =
     updateShowMoreButton (length_of (BookApp.matches (this st)))
                          (BookApp.page (this st))
                          (BookApp.booksPerPage (this st))) ∧
  updateShowMoreButton 5 1 2 = Button.mk false 3 ∧
  Spec.remainingCount 5 1 2 = 3 ∧
  Spec.canShowMore 5 1 2.
Proof.
  split; [|by repeat split].
  intros len page pageSize. unfold Spec.canShowMore, Spec.remainingCount. simpl.
  destruct (Z.gtb_spec (len - page * pageSize) 0),
           (Z.leb_spec (len - page * pageSize) 0); repeat split; (lia || done).
Qed.

(** The slice that [showMoreBooks] takes is the next page of the
    specification. *)
Lemma slice_is_nextPageSlice {A : Type} (arr : list A) page pageSize :
  1 ≤ page → 0 < pageSize →
  Spec.is_nextPageSlice arr page pageSize
    (Array_slice arr (page * pageSize) ((page + 1) * pageSize)).
Proof.
  intros Hpage Hsize i. unfold Array_slice, relative_index.
  assert (0 ≤ page * pageSize) by nia.
  assert ((page + 1) * pageSize = page * pageSize + pageSize) as -> by lia.
  set (start := page * pageSize) in *.
  set (len := Z.of_nat (length arr)).
  destruct (Z.ltb_spec start 0); [lia|].
  destruct (Z.ltb_spec (start + pageSize) 0); [lia|].
  set (count := Z.to_nat (Z.max (Z.min (start + pageSize) len - Z.min start len) 0)).
  destruct (decide (Z.of_nat i < pageSize)) as [Hi|Hi].
  - destruct (decide (i < count)%nat) as [Hc|Hc].
    + rewrite lookup_take_lt, lookup_drop by done. f_equal. lia.
    + rewrite lookup_take_ge by lia. symmetry. apply lookup_ge_None. lia.
  - apply lookup_take_ge. lia.
Qed.

(** Past the last match the slice is empty. *)
Lemma slice_past_end {A : Type} (arr : list A) start end_ :
  length_of arr ≤ start → Array_slice arr start end_ = [].
Proof.
  unfold length_of, Array_slice, relative_index. intros H.
  set (len := Z.of_nat (length arr)) in *.
  replace (Z.to_nat (Z.max _ 0)) with 0%nat; [done|].
  destruct (Z.ltb_spec start 0), (Z.ltb_spec end_ 0); lia.
Qed.

(** One run of [showMoreBooks], when more can be shown, adds the cards of
    the next page of the matches after the cards already in the list, which
    stay as they are, and adds exactly 1 to the page number. *)
Lemma showMoreBooks_appends_next_page :
  ∀ st,
    1 ≤ BookApp.page (this st) →
    0 < BookApp.booksPerPage (this st) →
    Spec.canShowMore (length_of (BookApp.matches (this st)))
                     (BookApp.page (this st)) (BookApp.booksPerPage (this st)) →
    ∃ st' batch,
      handle ShowMoreClicked st = (st', Returns tt) ∧
      Spec.is_nextPageSlice (BookApp.matches (this st)) (BookApp.page (this st))
                            (BookApp.booksPerPage (this st)) batch ∧
      Document.list_items (document st') =
        Document.list_items (document st) ++
        map (λ book, createBookElement book (BookApp.authors (this st))) batch ∧
      BookApp.page (this st') = BookApp.page (this st) + 1 ∧
      BookApp.matches (this st') = BookApp.matches (this st).
Proof.
  intros st Hpage Hsize _. eexists _, _. split; [reflexivity|].
  split; [by apply slice_is_nextPageSlice|]. by repeat split.
Qed.

(** One run of [showMoreBooks], when no more can be shown, adds no card to
    the list and leaves the matches as they are, and the button stays
    disabled with 0 to show; the page number still grows by 1. The handler
    has no test of its own: what keeps a click away is the button, which
    [updateShowMoreButton] has disabled in such a state. *)
Lemma showMoreBooks_when_exhausted :
  ∀ st,
    1 ≤ BookApp.page (this st) →
    0 < BookApp.booksPerPage (this st) →
    ¬ Spec.canShowMore (length_of (BookApp.matches (this st)))
                       (BookApp.page (this st)) (BookApp.booksPerPage (this st)) →
    ∃ st',
      handle ShowMoreClicked st = (st', Returns tt) ∧
      Document.list_items (document st') = Document.list_items (document st) ∧
      BookApp.matches (this st') = BookApp.matches (this st) ∧
      BookApp.page (this st') = BookApp.page (this st) + 1 ∧
      Document.list_button (document st') = Button.mk true 0 ∧
      Document.list_button (document (updateShowMoreButton_method st))
      = Button.mk true 0.
Proof.
  intros st Hpage Hsize Hmore. eexists. split; [reflexivity|].
  unfold Spec.canShowMore, Spec.remainingCount in Hmore.
  set (len := length_of (BookApp.matches (this st))) in *.
  set (page := BookApp.page (this st)) in *.
  set (size := BookApp.booksPerPage (this st)) in *.
  assert (len - page * size ≤ 0) as Hle by lia.
  repeat split.
  - unfold showMoreBooks, cards. simpl.
    rewrite slice_past_end by (fold len page size; lia).
    simpl. by rewrite app_nil_r.
  - unfold showMoreBooks, updateShowMoreButton_method, updateShowMoreButton. simpl.
    fold len page size.
    destruct (Z.leb_spec (len - (page + 1) * size) 0); [|nia].
    destruct (Z.gtb_spec (len - (page + 1) * size) 0); [lia|done].
  - unfold updateShowMoreButton_method, updateShowMoreButton. simpl.
    fold len page size.
    destruct (Z.leb_spec (len - page * size) 0); [|lia].
    destruct (Z.gtb_spec (len - page * size) 0); [lia|done].
Qed.

End pagination.

(** ** Lookup *)

Section lookup.
Implicit Types (books : list Book.t) (id : string).

Lemma findBookById_None books id :
  findBookById books id = None ↔ ∀ book, In book books → Book.id book ≠ id.
Proof.
  unfold findBookById. induction books as [|b books IH]; simpl.
  - split; [intros _ book [] | done].
  - destruct (String.eqb_spec (Book.id b) id) as [E|E].
    + split; [discriminate | intros H; destruct (H b); auto].
    + rewrite IH. split.
      * intros H book [<-|Hin]; auto.
      * intros H book Hin. apply H. by right.
Qed.

Lemma findBookById_Some books id found :
  findBookById books id = Some found ↔ Spec.first_with_id books id found.
Proof.
  unfold Spec.first_with_id, findBookById.
  induction books as [|b books IH]; simpl.
  - split; [discriminate | intros ([|??] & ? & ? & _); discriminate].
  - destruct (String.eqb_spec (Book.id b) id) as [E|E].
    + split.
      * intros [= <-]. exists [], books. repeat split; [done | intros ? []].
      * intros ([|b' before] & after & Hbooks & Hid & Hbefore);
          injection Hbooks as Hb Hrest; subst b; [done|].
        destruct (Hbefore b'); [by left | done].
    + rewrite IH. split.
      * intros (before & after & -> & Hid & Hbefore).
        exists (b :: before), after. repeat split; [done|].
        intros book [<-|Hin]; auto.
      * intros ([|b' before] & after & Hbooks & Hid & Hbefore);
          injection Hbooks as Hb Hrest; subst b; [contradiction|].
        exists before, after. repeat split; [done | done |].
        intros book Hin. apply Hbefore. by right.
Qed.

(** C9: [findBookById] goes through the books in order and returns the
    first one with the id asked for, also when later books have the same id;
    it returns nothing, and raises nothing, when no book has the id, as on
    the empty list. *)
Theorem findBookById_first_match :
  ∀ books id,
    (∀ found, findBookById books id = Some found ↔
              Spec.first_with_id books id found) ∧
    (findBookById books id = None ↔
     ∀ book, In book books → Book.id book ≠ id) ∧
    (∃ result, findBookById books id = result) ∧
    findBookById [] id = None ∧
    findBookById (books ++ [Book.mk id "first" "" "" "" "" [];
                            Book.mk id "second" "" "" "" "" []]) id
    = match findBookById books id with
      | Some found => Some found
      | None => Some (Book.mk id "first" "" "" "" "" [])
      end.
Proof.
  intros books id. split; [|split; [|split; [|split]]].
  - intros found. apply findBookById_Some.
  - apply findBookById_None.
  - by eexists.
  - done.
  - unfold findBookById. induction books as [|b books IH]; simpl.
    + by rewrite String.eqb_refl.
    + by destruct (String.eqb (Book.id b) id).
Qed.

End lookup.

(** ** The session *)

Section session.
Implicit Types (st : State) (ev : event) (filters : Filters.t).

(** A handler leaves the books, the registries and the page size as they
    are. *)
Lemma handle_books ev st :
  BookApp.books (this (handle ev st).1) = BookApp.books (this st).
Proof.
  destruct ev; try reflexivity.
  - simpl. unfold handleSearch. simpl.
    by destruct (filterBooks (BookApp.books (this st)) filters).
  - simpl. unfold showBookPreview.
    by destruct (find_active (BookApp.books (this st)) None pathArray).
Qed.

(** The one handler that assigns [matches] is the search, with the result of
    the filter over the books. *)
Lemma handle_matches ev st :
  BookApp.matches (this (handle ev st).1) = BookApp.matches (this st) ∨
  ∃ filters, ev = SearchSubmitted filters ∧
             filterBooks (BookApp.books (this st)) filters
             = Returns (BookApp.matches (this (handle ev st).1)).
Proof.
  destruct ev; try (by left).
  - simpl. unfold handleSearch. simpl.
    destruct (filterBooks (BookApp.books (this st)) filters) as [result|] eqn:E.
    + right. by exists filters.
    + by left.
  - left. simpl. unfold showBookPreview.
    by destruct (find_active (BookApp.books (this st)) None pathArray).
Qed.

Lemma script_matches books authors genres pageSize d :
  let st := script books authors genres pageSize d in
  BookApp.books (this st) = books ∧ BookApp.matches (this st) = books ∧
  BookApp.page (this st) = 1 ∧ BookApp.booksPerPage (this st) = pageSize.
Proof. done. Qed.

Lemma handle_invariant ev st :
  Spec.session_invariant st → Spec.session_invariant (handle ev st).1.
Proof.
  unfold Spec.session_invariant. intros Inv. rewrite handle_books.
  destruct (handle_matches ev st) as [->|(filters & _ & E)]; [done|].
  by apply Array_filter_sublist in E.
Qed.

(** C8: whatever the page number and the matches were, a search with a
    title, an author and a genre ends without an exception, with the page
    number 1 and with the result of the filter over all the books as the
    matches; the page number is 1 after every search. *)
Theorem handleSearch_resets_page :
  (∀ st titleQuery author genre,
     let filters := Filters.mk (Str titleQuery) author genre in
     ∃ st' result,
       handle (SearchSubmitted filters) st = (st', Returns tt) ∧
       filterBooks (BookApp.books (this st)) filters = Returns result ∧
       BookApp.page (this st') = 1 ∧
       BookApp.matches (this st') = result ∧
       BookApp.books (this st') = BookApp.books (this st)) ∧
  (∀ st filters, BookApp.page (this (handle (SearchSubmitted filters) st).1) = 1).
Proof.
  split.
  - intros st t author genre filters.
    destruct (filterBooks_title_returns (BookApp.books (this st)) t author genre)
      as [result E].
    simpl. unfold handleSearch. simpl. fold filters in E |- *. rewrite E.
    by eexists _, _.
  - intros st filters. simpl. unfold handleSearch. simpl.
    by destruct (filterBooks (BookApp.books (this st)) filters).
Qed.

(** C4: the matches are a part of the books, in the order of the books
    (they are the books with some of them removed), in the state the script
    leaves and after every handler, so in every state of a session. The list
    [filterBooks] returns is such a part of its input, and the matches are
    the books themselves at the start and change only to a result of
    [filterBooks] over the books. *)
Theorem session_invariant_holds :
  (∀ books authors genres pageSize d,
     let st := script books authors genres pageSize d in
     BookApp.matches (this st) = books ∧ BookApp.books (this st) = books ∧
     Spec.session_invariant st) ∧
  (∀ ev st,
     Spec.session_invariant st →
     Spec.session_invariant (handle ev st).1 ∧
     BookApp.books (this (handle ev st).1) = BookApp.books (this st)) ∧
  (∀ books authors genres pageSize d st,
     reachable (script books authors genres pageSize d) st →
     Spec.session_invariant st ∧ BookApp.books (this st) = books) ∧
  (∀ books filters kept,
     filterBooks books filters = Returns kept → sublist kept books) ∧
  (∀ ev st,
     BookApp.matches (this (handle ev st).1) = BookApp.matches (this st) ∨
     ∃ filters, ev = SearchSubmitted filters ∧
                filterBooks (BookApp.books (this st)) filters
                = Returns (BookApp.matches (this (handle ev st).1))).
Proof.
  split; [|split; [|split; [|split]]].
  - intros. repeat split. unfold Spec.session_invariant. reflexivity.
  - intros ev st Inv. split; [by apply handle_invariant | apply handle_books].
  - intros books authors genres pageSize d st Hst.
    induction Hst as [|st ev _ [Inv Hbooks]].
    + split; [|done]. unfold Spec.session_invariant. reflexivity.
    + split; [by apply handle_invariant | by rewrite handle_books].
  - intros books filters kept. apply Array_filter_sublist.
  - apply handle_matches.
Qed.

Lemma session_invariant_holds_witness :
  Spec.session_invariant four_books ∧
  Spec.session_invariant
    (handle (SearchSubmitted (Filters.mk (Str "e") (Str "any") (Str "novel")))
            four_books).1 ∧
  BookApp.matches
    (this (handle (SearchSubmitted (Filters.mk (Str "e") (Str "any") (Str "novel")))
                  four_books).1)
  = [emma; ulysses] ∧
  sublist [emma; ulysses] [dune; hobbit; emma; ulysses].
Proof.
  assert (Spec.session_invariant four_books) as Inv.
  { unfold Spec.session_invariant. vm_compute. reflexivity. }
  split; [exact Inv|]. split; [|split].
  - apply (proj1 (proj2 session_invariant_holds)). exact Inv.
  - reflexivity.
  - apply (proj1 (proj2 (proj2 (proj2 session_invariant_holds)))
             [dune; hobbit; emma; ulysses]
             (Filters.mk (Str "e") (Str "any") (Str "novel"))).
    reflexivity.
Defined.

End session.

(** * Further properties of the code *)

(** ** Slices *)

Section slices.
Context {A : Type}.
Implicit Types (arr : list A) (n a b : Z).

(** [arr.slice(0, n)] is the first [n] elements, all of them when [n] is
    past the end. *)
Lemma slice_from_start arr n :
  0 ≤ n → Array_slice arr 0 n = take (Z.to_nat n) arr.
Proof.
  intros Hn. unfold Array_slice, relative_index.
  destruct (Z.ltb_spec n 0); [lia|].
  change (0 <? 0) with false. cbv iota.
  rewrite (Z.min_l 0), Z.sub_0_r by lia. change (Z.to_nat 0) with 0%nat.
  rewrite drop_0.
  destruct (Z.le_gt_cases n (Z.of_nat (length arr))).
  - f_equal. lia.
  - rewrite !take_ge; [done | lia | lia].
Qed.

(** Two slices that meet make one. *)
Lemma slice_append arr a b :
  0 ≤ a → a ≤ b →
  Array_slice arr 0 a ++ Array_slice arr a b = Array_slice arr 0 b.
Proof.
  intros Ha Hab. rewrite !slice_from_start by lia.
  unfold Array_slice, relative_index.
  destruct (Z.ltb_spec a 0); [lia|]. destruct (Z.ltb_spec b 0); [lia|].
  set (len := Z.of_nat (length arr)).
  destruct (Z.le_gt_cases a len).
  - replace (Z.to_nat (Z.min a len)) with (Z.to_nat a) by lia.
    rewrite take_take_drop.
    destruct (Z.le_gt_cases b len).
    + f_equal. lia.
    + rewrite !take_ge; [done | lia | lia].
  - rewrite (drop_ge arr) by lia. rewrite take_nil, app_nil_r.
    rewrite !take_ge; [done | lia | lia].
Qed.

Lemma slice_from_start_length arr n :
  0 ≤ n → length_of (Array_slice arr 0 n) = Z.min n (length_of arr).
Proof.
  intros Hn. rewrite slice_from_start by done.
  unfold length_of. rewrite length_take. lia.
Qed.

Lemma slice_whole arr n :
  length_of arr ≤ n → Array_slice arr 0 n = arr.
Proof.
  unfold length_of. intros Hn. rewrite slice_from_start by lia.
  apply take_ge. lia.
Qed.

End slices.

(** ** What the script leaves on the page *)

Section startup.
Implicit Types (books : list Book.t) (authors genres : registry) (d : Document.t).

Lemma script_list_items books authors genres n d :
  Document.list_items (document (script books authors genres n d)) =
  (Document.list_items d
   ++ map (λ book, createBookElement book authors) (Array_slice books 0 n))
  ++ map (λ book, createBookElement book authors) (Array_slice books 0 n).
Proof. destruct d as [? ? ? ? ? ? ? ? ? ? ? [] ?]; reflexivity. Qed.

(** X1: [init] runs in the constructor and once more at the end of the
    script, so the first page of the books is rendered twice: the list holds
    what it held, then the cards of the first [booksPerPage] books, then the
    same cards again. *)
Theorem script_renders_first_page_twice :
  ∀ books authors genres n d,
    0 ≤ n →
    let first :=
      map (λ book, createBookElement book authors) (take (Z.to_nat n) books) in
    Document.list_items (document (script books authors genres n d)) =
    Document.list_items d ++ first ++ first.
Proof.
  intros books authors genres n d Hn first.
  rewrite script_list_items, slice_from_start by done.
  by rewrite <- app_assoc.
Qed.

Lemma script_renders_first_page_twice_witness :
  Document.list_items (document four_books) =
  let first :=
    map (λ book, createBookElement book [("a1", "Frank Herbert")])
        (take (Z.to_nat 2) [dune; hobbit; emma; ulysses]) in
  Document.list_items blank_page ++ first ++ first.
Proof.
  apply (script_renders_first_page_twice
           [dune; hobbit; emma; ulysses] [("a1", "Frank Herbert")] [] 2 blank_page).
  lia.
Defined.

(** X2: so, with a list that starts empty and at least one book to show,
    the list the script leaves is not the window of the matches up to the
    current page: it has every card of the first page twice. *)
Theorem script_not_in_sync :
  ∀ books authors genres n d,
    0 < n → books ≠ [] →
    ¬ displayed_in_sync (script books authors genres n d).
Proof.
  intros books authors genres n d Hn Hbooks Hsync.
  unfold displayed_in_sync in Hsync.
  rewrite script_list_items in Hsync.
  apply (f_equal length) in Hsync. revert Hsync.
  unfold cards. change (BookApp.matches (this (script books authors genres n d)))
    with books.
  change (BookApp.page (this (script books authors genres n d))) with 1.
  change (BookApp.booksPerPage (this (script books authors genres n d))) with n.
  rewrite Z.mul_1_l, !length_app, !length_map, slice_from_start by lia.
  rewrite length_take. destruct books; [done|]. simpl length. lia.
Qed.

Lemma script_not_in_sync_witness : ¬ displayed_in_sync four_books.
Proof.
  apply (script_not_in_sync [dune; hobbit; emma; ulysses]
           [("a1", "Frank Herbert")] [] 2 blank_page); [lia | discriminate].
Defined.

(** X3: each of the two dropdowns gets its options twice as well: after the
    options it had come the default option, with the value "any", and one
    option per entry of the registry, in the order of the entries, and then
    all of these again. *)
Theorem script_populates_dropdowns_twice :
  ∀ books authors genres n d,
    Document.search_genres (document (script books authors genres n d)) =
      Document.search_genres d
      ++ (("any", "All Genres") :: genres)
      ++ (("any", "All Genres") :: genres) ∧
    Document.search_authors (document (script books authors genres n d)) =
      Document.search_authors d
      ++ (("any", "All Authors") :: authors)
      ++ (("any", "All Authors") :: authors).
Proof.
  intros. destruct d as [? ? ? ? ? ? ? ? ? ? ? [] ?]; simpl;
    unfold populateDropdown; by rewrite <- !app_assoc.
Qed.

End startup.

(** ** What a search shows *)

Section search.
Implicit Types (st : State) (filters : Filters.t) (result : list Book.t).

Lemma handleSearch_returns st filters result :
  filterBooks (BookApp.books (this st)) filters = Returns result →
  handleSearch filters st =
  (mkState
     (BookApp.set_matches result (BookApp.set_page 1 (this st)))
     (Document.set_search_overlay_open false
        (Document.set_list_button
           (updateShowMoreButton (length_of result) 1 (BookApp.booksPerPage (this st)))
           (Document.set_list_items
              (map (λ book, createBookElement book (BookApp.authors (this st)))
                   (Array_slice result 0 (BookApp.booksPerPage (this st))))
              (Document.set_list_message_show (length_of result <? 1)
                                              (document st))))),
   Returns tt).
Proof. intros E. unfold handleSearch. simpl. by rewrite E. Qed.

Lemma handleSearch_throws st filters e :
  filterBooks (BookApp.books (this st)) filters = Throws e →
  handleSearch filters st = (on_this (BookApp.set_page 1) st, Throws e).
Proof. intros E. unfold handleSearch. simpl. by rewrite E. Qed.

(** X4: a search that [filterBooks] answers replaces the whole list by the
    cards of the first [booksPerPage] books of the result, whatever the list
    held; it shows the "no results" message exactly when the result is
    empty, sets the button for page 1 of the result and closes the search
    overlay. *)
Theorem handleSearch_display :
  ∀ st filters result,
    0 ≤ BookApp.booksPerPage (this st) →
    filterBooks (BookApp.books (this st)) filters = Returns result →
    ∃ st',
      handle (SearchSubmitted filters) st = (st', Returns tt) ∧
      Document.list_items (document st') =
        map (λ book, createBookElement book (BookApp.authors (this st)))
            (take (Z.to_nat (BookApp.booksPerPage (this st))) result) ∧
      (Document.list_message_show (document st') = true ↔ result = []) ∧
      Document.list_button (document st') =
        updateShowMoreButton (length_of result) 1 (BookApp.booksPerPage (this st)) ∧
      Document.search_overlay_open (document st') = false.
Proof.
  intros st filters result Hsize E. eexists. split.
  { simpl. by apply handleSearch_returns. }
  simpl. rewrite slice_from_start by done. repeat split.
  - destruct result; [done|]. unfold length_of. simpl length.
    intros H. apply Z.ltb_lt in H. lia.
  - by intros ->.
Qed.

Lemma handleSearch_display_witness :
  ∃ st',
    handle (SearchSubmitted (Filters.mk (Str "e") (Str "any") (Str "any")))
           five_books = (st', Returns tt) ∧
    Document.list_items (document st') =
      map (λ book, createBookElement book (BookApp.authors (this five_books)))
          (take (Z.to_nat (BookApp.booksPerPage (this five_books)))
                [dune; emma; ulysses; walden]) ∧
    (Document.list_message_show (document st') = true ↔
     [dune; emma; ulysses; walden] = []) ∧
    Document.list_button (document st') =
      updateShowMoreButton (length_of [dune; emma; ulysses; walden]) 1
                           (BookApp.booksPerPage (this five_books)) ∧
    Document.search_overlay_open (document st') = false.
Proof.
  apply (handleSearch_display five_books
           (Filters.mk (Str "e") (Str "any") (Str "any"))
           [dune; emma; ulysses; walden]); [vm_compute; discriminate | reflexivity].
Defined.

(** X5: a search without a title field, on a session that has books, stops
    at the exception of [filterBooks]: the page number is already 1, and the
    matches, the list, the message, the button and the search overlay are as
    they were. *)
Theorem handleSearch_raises_after_page_reset :
  ∀ st author genre,
    BookApp.books (this st) ≠ [] →
    handle (SearchSubmitted (Filters.mk Undefined author genre)) st =
    (mkState (BookApp.set_page 1 (this st)) (document st), Throws TypeError).
Proof.
  intros st author genre Hbooks. simpl. apply handleSearch_throws.
  by destruct (BookApp.books (this st)).
Qed.

Lemma handleSearch_raises_after_page_reset_witness :
  handle (SearchSubmitted (Filters.mk Undefined (Str "any") (Str "any")))
         (handle ShowMoreClicked four_books).1 =
  (mkState (BookApp.set_page 1 (this (handle ShowMoreClicked four_books).1))
           (document (handle ShowMoreClicked four_books).1),
   Throws TypeError).
Proof.
  apply (handleSearch_raises_after_page_reset
           (handle ShowMoreClicked four_books).1 (Str "any") (Str "any")).
  vm_compute. discriminate.
Defined.

(** X6: a search forgets the search and the clicks on "show more" before
    it: when [filterBooks] answers the criteria, the state after the search
    is the same whether or not another search or a click came first. A
    search done twice is the search done once, also when it raises. *)
Theorem handleSearch_forgets :
  (∀ st filters ev,
     (handle (SearchSubmitted filters) st).2 = Returns tt →
     (ev = ShowMoreClicked ∨ ∃ earlier, ev = SearchSubmitted earlier) →
     handle (SearchSubmitted filters) (handle ev st).1 =
     handle (SearchSubmitted filters) st) ∧
  (∀ st filters,
     handle (SearchSubmitted filters) (handle (SearchSubmitted filters) st).1 =
     handle (SearchSubmitted filters) st).
Proof.
  split.
  - intros [[books authors genres size page matches] d] filters ev Hret Hev.
    destruct d. simpl in *. unfold handleSearch in *. simpl in *.
    destruct (filterBooks books filters) as [result|] eqn:E; [|discriminate].
    destruct Hev as [->|[earlier ->]]; simpl.
    + by rewrite E.
    + unfold handleSearch. simpl.
      destruct (filterBooks books earlier); simpl; by rewrite E.
  - intros [[books authors genres size page matches] d] filters.
    destruct d. simpl. unfold handleSearch. simpl.
    destruct (filterBooks books filters) as [result|] eqn:E; simpl; by rewrite E.
Qed.

Lemma handleSearch_forgets_witness :
  handle (SearchSubmitted (Filters.mk (Str "e") (Str "any") (Str "any")))
         (handle ShowMoreClicked five_books).1 =
  handle (SearchSubmitted (Filters.mk (Str "e") (Str "any") (Str "any")))
         five_books.
Proof.
  apply (proj1 handleSearch_forgets five_books
           (Filters.mk (Str "e") (Str "any") (Str "any")) ShowMoreClicked);
    [reflexivity | by left].
Defined.

End search.

(** ** The list and the button against the session *)

Section sync.
Implicit Types (st : State) (ev : event).

Lemma handle_frame ev st :
  (∀ filters, ev ≠ SearchSubmitted filters) → ev ≠ ShowMoreClicked →
  this (handle ev st).1 = this st ∧
  Document.list_items (document (handle ev st).1) = Document.list_items (document st) ∧
  Document.list_button (document (handle ev st).1) = Document.list_button (document st) ∧
  Document.list_message_show (document (handle ev st).1)
  = Document.list_message_show (document st).
Proof.
  intros Hsearch Hmore. destruct ev; try done.
  - by destruct (Hsearch filters).
  - simpl. unfold showBookPreview.
    by destruct (find_active (BookApp.books (this st)) None pathArray).
  - simpl. unfold handleThemeChange. simpl.
    by destruct (strict_eq theme (Str "night")).
Qed.

(** X7: a preview, a change of theme and the opening and closing of the
    overlays never touch the session (books, matches, page number), the
    list, the button or the "no results" message. *)
Theorem other_events_keep_the_list :
  ∀ ev st,
    (∀ filters, ev ≠ SearchSubmitted filters) → ev ≠ ShowMoreClicked →
    (handle ev st).2 = Returns tt ∧
    this (handle ev st).1 = this st ∧
    Document.list_items (document (handle ev st).1)
    = Document.list_items (document st) ∧
    Document.list_button (document (handle ev st).1)
    = Document.list_button (document st) ∧
    Document.list_message_show (document (handle ev st).1)
    = Document.list_message_show (document st).
Proof.
  intros ev st Hsearch Hmore. split; [|by apply handle_frame].
  destruct ev; try done. by destruct (Hsearch filters).
Qed.

Lemma other_events_keep_the_list_witness :
  (handle (ThemeSubmitted (Str "night")) five_books).2 = Returns tt ∧
  this (handle (ThemeSubmitted (Str "night")) five_books).1 = this five_books ∧
  Document.list_items (document (handle (ThemeSubmitted (Str "night")) five_books).1)
  = Document.list_items (document five_books) ∧
  Document.list_button (document (handle (ThemeSubmitted (Str "night")) five_books).1)
  = Document.list_button (document five_books) ∧
  Document.list_message_show
    (document (handle (ThemeSubmitted (Str "night")) five_books).1)
  = Document.list_message_show (document five_books).
Proof.
  apply (other_events_keep_the_list (ThemeSubmitted (Str "night")) five_books);
    discriminate.
Defined.

Lemma showMoreBooks_in_sync st :
  1 ≤ BookApp.page (this st) → 0 ≤ BookApp.booksPerPage (this st) →
  displayed_in_sync st → displayed_in_sync (showMoreBooks st).
Proof.
  unfold displayed_in_sync, showMoreBooks, cards. simpl.
  intros Hpage Hsize ->. rewrite <- map_app. f_equal.
  apply slice_append; nia.
Qed.

(** X8: a search that ends normally leaves in the list exactly the cards of
    the matches up to the current page, and from then on every handler that
    ends normally keeps it so: a click on "show more" extends the list to
    the matches up to the new page. *)
Theorem displayed_in_sync_kept :
  (∀ st filters,
     (handle (SearchSubmitted filters) st).2 = Returns tt →
     displayed_in_sync (handle (SearchSubmitted filters) st).1) ∧
  (∀ ev st,
     1 ≤ BookApp.page (this st) → 0 ≤ BookApp.booksPerPage (this st) →
     displayed_in_sync st →
     (handle ev st).2 = Returns tt →
     displayed_in_sync (handle ev st).1).
Proof.
  assert (∀ st filters,
     (handle (SearchSubmitted filters) st).2 = Returns tt →
     displayed_in_sync (handle (SearchSubmitted filters) st).1) as Hsearch.
  { intros st filters. simpl. unfold handleSearch. simpl.
    destruct (filterBooks (BookApp.books (this st)) filters) as [result|];
      [intros _|discriminate].
    unfold displayed_in_sync, cards. simpl. by rewrite Z.mul_1_l. }
  split; [exact Hsearch|].
  intros ev st Hpage Hsize Hsync Hret.
  destruct ev; try done.
  - by apply Hsearch.
  - by apply showMoreBooks_in_sync.
  - unfold displayed_in_sync, cards in *. simpl. unfold showBookPreview.
    by destruct (find_active (BookApp.books (this st)) None pathArray).
  - unfold displayed_in_sync, cards in *. simpl. unfold handleThemeChange. simpl.
    by destruct (strict_eq theme (Str "night")).
Qed.

Lemma displayed_in_sync_kept_witness :
  displayed_in_sync five_books_searched ∧
  displayed_in_sync (handle ShowMoreClicked five_books_searched).1.
Proof.
  assert (displayed_in_sync five_books_searched) as Hsync.
  { apply (proj1 displayed_in_sync_kept five_books). reflexivity. }
  split; [exact Hsync|].
  apply (proj2 displayed_in_sync_kept ShowMoreClicked five_books_searched);
    [vm_compute; discriminate | vm_compute; discriminate | exact Hsync | reflexivity].
Defined.

(** X9: when the list is the window of the matches, it has
    [min(page * booksPerPage, matches.length)] cards. *)
Theorem displayed_count :
  ∀ st,
    1 ≤ BookApp.page (this st) → 0 ≤ BookApp.booksPerPage (this st) →
    displayed_in_sync st →
    length_of (Document.list_items (document st)) =
    Z.min (BookApp.page (this st) * BookApp.booksPerPage (this st))
          (length_of (BookApp.matches (this st))).
Proof.
  intros st Hpage Hsize Hsync. rewrite Hsync. unfold cards, length_of.
  rewrite length_map. apply slice_from_start_length. nia.
Qed.

Lemma displayed_count_witness :
  length_of (Document.list_items (document five_books_searched)) =
  Z.min (BookApp.page (this five_books_searched)
         * BookApp.booksPerPage (this five_books_searched))
        (length_of (BookApp.matches (this five_books_searched))).
Proof.
  apply (displayed_count five_books_searched);
    [vm_compute; discriminate | vm_compute; discriminate |].
  unfold displayed_in_sync. vm_compute. reflexivity.
Defined.

(** X10: when the list is the window of the matches and the button is
    disabled, every match has its card in the list, in the order of the
    matches: nothing is left to show. *)
Theorem disabled_button_all_displayed :
  ∀ st,
    displayed_in_sync st → button_in_sync st →
    Button.disabled (Document.list_button (document st)) = true →
    Document.list_items (document st) =
    map (λ book, createBookElement book (BookApp.authors (this st)))
        (BookApp.matches (this st)).
Proof.
  intros st Hsync Hbutton Hdisabled.
  rewrite Hbutton in Hdisabled. unfold updateShowMoreButton in Hdisabled.
  simpl in Hdisabled. apply Z.leb_le in Hdisabled.
  rewrite Hsync. unfold cards. f_equal. apply slice_whole. lia.
Qed.

Lemma disabled_button_all_displayed_witness :
  let st := (handle ShowMoreClicked (handle ShowMoreClicked five_books_searched).1).1 in
  Document.list_items (document st) =
  map (λ book, createBookElement book (BookApp.authors (this st)))
      (BookApp.matches (this st)).
Proof.
  apply (disabled_button_all_displayed
           (handle ShowMoreClicked (handle ShowMoreClicked five_books_searched).1).1);
    [unfold displayed_in_sync | unfold button_in_sync |];
    vm_compute; reflexivity.
Defined.

(** X11: the button is set for the matches and the page number of the
    session when the script ends, and stays so after every handler that
    ends normally. A search that raises resets the page number and leaves
    the button as it was: on four books, after the click that shows the
    last two, such a search leaves the page number 1 with the button
    disabled. *)
Theorem button_in_sync_kept :
  (∀ books authors genres n d, button_in_sync (script books authors genres n d)) ∧
  (∀ ev st,
     button_in_sync st →
     (handle ev st).2 = Returns tt →
     button_in_sync (handle ev st).1) ∧
  (let st := (handle ShowMoreClicked four_books).1 in
   let filters := Filters.mk Undefined (Str "any") (Str "any") in
   button_in_sync st ∧
   ¬ button_in_sync (handle (SearchSubmitted filters) st).1 ∧
   BookApp.page (this (handle (SearchSubmitted filters) st).1) = 1 ∧
   Button.disabled
     (Document.list_button (document (handle (SearchSubmitted filters) st).1))
   = true).
Proof.
  split; [|split].
  - intros. unfold button_in_sync.
    destruct d as [? ? ? ? ? ? ? ? ? ? ? [] ?]; vm_compute; reflexivity.
  - intros ev st Hsync Hret. destruct ev; try done.
    + revert Hret. simpl. unfold handleSearch. simpl.
      by destruct (filterBooks (BookApp.books (this st)) filters).
    + unfold button_in_sync in *. simpl. unfold showBookPreview.
      by destruct (find_active (BookApp.books (this st)) None pathArray).
    + unfold button_in_sync in *. simpl. unfold handleThemeChange. simpl.
      by destruct (strict_eq theme (Str "night")).
  - cbv zeta. unfold button_in_sync.
    split; [vm_compute; reflexivity|].
    split; [vm_compute; discriminate|].
    split; vm_compute; reflexivity.
Qed.

Lemma button_in_sync_kept_witness :
  button_in_sync (handle ShowMoreClicked four_books).1.
Proof.
  apply (proj1 (proj2 button_in_sync_kept) ShowMoreClicked four_books);
    [|reflexivity].
  apply (proj1 button_in_sync_kept).
Defined.

(** X12: in every state of a session the page number is at least 1, and
    the books, the two registries and the page size are those the script was
    given. *)
Theorem reachable_page_positive :
  ∀ books authors genres n d st,
    reachable (script books authors genres n d) st →
    1 ≤ BookApp.page (this st) ∧
    BookApp.books (this st) = books ∧
    BookApp.authors (this st) = authors ∧
    BookApp.genres (this st) = genres ∧
    BookApp.booksPerPage (this st) = n.
Proof.
  intros books authors genres n d st Hst.
  induction Hst as [|st ev _ (Hpage & Hbooks & Hauthors & Hgenres & Hsize)].
  - by repeat split.
  - destruct ev; try done.
    + simpl. unfold handleSearch. simpl.
      by destruct (filterBooks (BookApp.books (this st)) filters).
    + simpl. repeat split; try done. lia.
    + simpl. unfold showBookPreview.
      by destruct (find_active (BookApp.books (this st)) None pathArray).
Qed.

Lemma reachable_page_positive_witness :
  let st := (handle ShowMoreClicked four_books).1 in
  1 ≤ BookApp.page (this st) ∧
  BookApp.books (this st) = [dune; hobbit; emma; ulysses] ∧
  BookApp.authors (this st) = [("a1", "Frank Herbert")] ∧
  BookApp.genres (this st) = [] ∧
  BookApp.booksPerPage (this st) = 2.
Proof.
  apply (reachable_page_positive [dune; hobbit; emma; ulysses]
           [("a1", "Frank Herbert")] [] 2 blank_page).
  apply (reachable_step _ _ ShowMoreClicked). apply reachable_start.
Defined.

End sync.

(** ** The preview *)

Section preview.
Implicit Types (books : list Book.t) (pathArray : list node) (st : State).

Lemma find_active_Some books found pathArray :
  find_active books (Some found) pathArray = Some found.
Proof. by destruct pathArray. Qed.

Lemma find_active_cons books (preview : node) pathArray :
  find_active books None (preview :: pathArray) =
  match preview with
  | Undefined => find_active books None pathArray
  | Str id =>
      if String.eqb id "" then find_active books None pathArray
      else match findBookById books id with
           | Some found => Some found
           | None => find_active books None pathArray
           end
  end.
Proof.
  destruct preview as [|id]; [done|]. simpl.
  destruct (String.eqb id ""); [done|]. simpl.
  destruct (findBookById books id); [|done]. apply find_active_Some.
Qed.

(** X13: the book of the preview is the one of the first node of the path,
    from the target outwards, whose [data-preview] is not empty and is the
    id of a book; nodes without the attribute, with an empty one or with an
    id that no book has are passed over. *)
Theorem showBookPreview_first_resolving_node :
  ∀ books pathArray found,
    find_active books None pathArray = Some found ↔
    ∃ before id after,
      pathArray = before ++ Str id :: after ∧
      id ≠ "" ∧
      findBookById books id = Some found ∧
      ∀ preview, In preview before →
        preview = Undefined ∨
        ∃ other, preview = Str other ∧
                 (other = "" ∨ findBookById books other = None).
Proof.
  intros books pathArray found.
  induction pathArray as [|preview pathArray IH].
  - split; [discriminate | intros ([|??] & ? & ? & ? & _); discriminate].
  - rewrite find_active_cons. split.
    + intros H.
      assert (find_active books None pathArray = Some found →
              (preview = Undefined ∨
               ∃ other, preview = Str other ∧
                        (other = "" ∨ findBookById books other = None)) →
              ∃ before id after,
                preview :: pathArray = before ++ Str id :: after ∧ id ≠ "" ∧
                findBookById books id = Some found ∧
                ∀ p, In p before →
                  p = Undefined ∨
                  ∃ other, p = Str other ∧
                           (other = "" ∨ findBookById books other = None))
        as Hrest.
      { intros Hfind Hskip. apply IH in Hfind
          as (before & id & after & -> & Hid & Hfound & Hbefore).
        exists (preview :: before), id, after. repeat split; try done.
        intros p [<-|Hin]; auto. }
      destruct preview as [|id]; [apply Hrest; auto|].
      destruct (String.eqb_spec id "") as [->|Hid].
      { apply Hrest; eauto. }
      destruct (findBookById books id) as [b|] eqn:Hb.
      * injection H as ->. exists [], id, pathArray. by repeat split.
      * apply Hrest; eauto.
    + intros ([|first before] & id & after & Hpath & Hid & Hfound & Hbefore);
        injection Hpath as -> ->.
      * apply String.eqb_neq in Hid. by rewrite Hid, Hfound.
      * assert (find_active books None (before ++ Str id :: after) = Some found)
          as Hrest.
        { apply IH. exists before, id, after. repeat split; try done.
          intros p Hin. apply Hbefore. by right. }
        destruct (Hbefore first (or_introl eq_refl))
          as [->|(other & -> & [->|Hnone])]; [done | done |].
        rewrite Hnone. by destruct (String.eqb other "").
Qed.

Lemma find_active_None books pathArray :
  (∀ preview, In preview pathArray →
     preview = Undefined ∨
     ∃ other, preview = Str other ∧
              (other = "" ∨ findBookById books other = None)) →
  find_active books None pathArray = None.
Proof.
  induction pathArray as [|preview pathArray IH]; [done|]. intros Hpath.
  rewrite find_active_cons.
  assert (find_active books None pathArray = None) as Hrest.
  { apply IH. intros p Hin. apply Hpath. by right. }
  destruct (Hpath preview (or_introl eq_refl))
    as [->|(other & -> & [->|Hnone])]; [done | done |].
  rewrite Hnone. by destruct (String.eqb other "").
Qed.

(** X14: a click whose path has no such node changes nothing, neither in
    the session nor on the page. *)
Theorem showBookPreview_no_target :
  ∀ pathArray st,
    (∀ preview, In preview pathArray →
       preview = Undefined ∨
       ∃ other, preview = Str other ∧
                (other = "" ∨ findBookById (BookApp.books (this st)) other = None)) →
    handle (CardClicked pathArray) st = (st, Returns tt).
Proof.
  intros pathArray st Hpath. simpl. unfold showBookPreview.
  by rewrite find_active_None.
Qed.

Lemma showBookPreview_no_target_witness :
  handle (CardClicked [Undefined; Str ""; Str "none"]) four_books
  = (four_books, Returns tt).
Proof.
  apply (showBookPreview_no_target [Undefined; Str ""; Str "none"] four_books).
  intros preview [<-|[<-|[<-|[]]]]; [by left | right; eauto | right; eauto].
Defined.





End preview.

(** ** The theme *)

Section theme.
Implicit Types (st : State) (theme : value).

(** X16: of two themes submitted one after the other the second decides
    the colours; the state is the one the second alone would give. *)
Theorem handleThemeChange_last_wins :
  ∀ st first second,
    handle (ThemeSubmitted second) (handle (ThemeSubmitted first) st).1 =
    handle (ThemeSubmitted second) st.
Proof.
  intros [this d] first second. destruct d. simpl.
  unfold handleThemeChange. simpl.
  by destruct (strict_eq first (Str "night")), (strict_eq second (Str "night")).
Qed.

(** X17: every theme but "night" gives the colours of the day: "day", any
    other text, and no theme at all. *)
Theorem handleThemeChange_day_by_default :
  ∀ st theme,
    theme ≠ Str "night" →
    handle (ThemeSubmitted theme) st = handle (ThemeSubmitted (Str "day")) st ∧
    Document.color_dark (document (handle (ThemeSubmitted theme) st).1)
    = "10, 10, 20" ∧
    Document.color_light (document (handle (ThemeSubmitted theme) st).1)
    = "255, 255, 255".
Proof.
  intros st theme Htheme. simpl. unfold handleThemeChange.
  assert (strict_eq theme (Str "night") = false) as ->; [|done].
  destruct theme as [|s]; [done|]. simpl. apply String.eqb_neq. congruence.
Qed.

Lemma handleThemeChange_day_by_default_witness :
  handle (ThemeSubmitted Undefined) four_books
  = handle (ThemeSubmitted (Str "day")) four_books ∧
  Document.color_dark (document (handle (ThemeSubmitted Undefined) four_books).1)
  = "10, 10, 20" ∧
  Document.color_light (document (handle (ThemeSubmitted Undefined) four_books).1)
  = "255, 255, 255".
Proof.
  apply (handleThemeChange_day_by_default four_books Undefined). discriminate.
Defined.

(** X18: the theme that [setupTheme] selects in the settings form is the
    one whose colours it sets: submitting the form as [setupTheme] left it
    changes no colour, it only closes the overlay. *)
Theorem setupTheme_agrees_with_handleThemeChange :
  ∀ st,
    let st' := setupTheme st in
    handle (ThemeSubmitted (Str (Document.settings_theme (document st')))) st' =
    (on_document (Document.set_settings_overlay_open false) st', Returns tt).
Proof.
  intros [this d]. by destruct d as [? ? ? ? ? ? ? ? ? ? ? [] ?].
Qed.

End theme.

(** ** More on the filter *)

Section filter_more.
Implicit Types (books : list Book.t) (t : string) (author genre : value).

Lemma isWhiteSpace_toLowerCase_unit c :
  isWhiteSpace (toLowerCase_unit c) = isWhiteSpace c.
Proof. by destruct c as [[] [] [] [] [] [] [] []]. Qed.

Lemma whitespace_only_toLowerCase t :
  Spec.whitespace_only (String_toLowerCase t) ↔ Spec.whitespace_only t.
Proof.
  induction t as [|c t IH]; [done|]. simpl.
  by rewrite !whitespace_only_cons, isWhiteSpace_toLowerCase_unit, IH.
Qed.

Lemma trim_empty_eqb t1 t2 :
  (Spec.whitespace_only t1 ↔ Spec.whitespace_only t2) →
  String.eqb (String_trim t1) "" = String.eqb (String_trim t2) "".
Proof.
  rewrite <- !trim_empty. intros H.
  destruct (String.eqb_spec (String_trim t1) ""),
           (String.eqb_spec (String_trim t2) ""); tauto.
Qed.

Lemma Array_filter_ext {A : Type} (cb1 cb2 : A → completion bool) (arr : list A) :
  (∀ x, cb1 x = cb2 x) → Array_filter cb1 arr = Array_filter cb2 arr.
Proof.
  intros H. induction arr as [|x arr IH]; [done|]. simpl. by rewrite H, IH.
Qed.

(** X19: the title search does not look at the case of the query: two
    queries that are the same once in lower case give the same result, with
    the same author and genre fields. *)
Theorem filterBooks_query_case :
  ∀ books t1 t2 author genre,
    String_toLowerCase t1 = String_toLowerCase t2 →
    filterBooks books (Filters.mk (Str t1) author genre) =
    filterBooks books (Filters.mk (Str t2) author genre).
Proof.
  intros books t1 t2 author genre Hcase. apply Array_filter_ext. intros book.
  rewrite !book_filter_title, Hcase. do 4 f_equal.
  apply trim_empty_eqb.
  by rewrite <- (whitespace_only_toLowerCase t1), Hcase, whitespace_only_toLowerCase.
Qed.

Lemma filterBooks_query_case_witness :
  filterBooks [dune; hobbit] (Filters.mk (Str "DU") (Str "any") (Str "any")) =
  filterBooks [dune; hobbit] (Filters.mk (Str "du") (Str "any") (Str "any")).
Proof.
  apply (filterBooks_query_case [dune; hobbit] "DU" "du"). reflexivity.
Defined.

(** X20: a title query of white space only is the empty query: the result
    is the one of the same author and genre with the title left empty. *)
Theorem filterBooks_blank_query :
  ∀ books t author genre,
    Spec.whitespace_only t →
    filterBooks books (Filters.mk (Str t) author genre) =
    filterBooks books (Filters.mk (Str "") author genre).
Proof.
  intros books t author genre Ht. apply Array_filter_ext. intros book.
  rewrite !book_filter_title.
  apply trim_empty in Ht. rewrite Ht. done.
Qed.

Lemma filterBooks_blank_query_witness :
  filterBooks [dune; hobbit] (Filters.mk (Str "  ") (Str "a2") (Str "any")) =
  filterBooks [dune; hobbit] (Filters.mk (Str "") (Str "a2") (Str "any")).
Proof.
  apply (filterBooks_blank_query [dune; hobbit] "  " (Str "a2") (Str "any")).
  apply trim_empty. reflexivity.
Defined.

(** X21: filtering the result of a filter again with the same criteria
    returns that result unchanged. *)
Theorem filterBooks_idempotent :
  ∀ books filters kept,
    filterBooks books filters = Returns kept →
    filterBooks kept filters = Returns kept.
Proof.
  unfold filterBooks. intros books filters.
  induction books as [|book books IH]; simpl; intros kept H.
  - by injection H as <-.
  - destruct (book_filter filters book) as [keep|] eqn:Hbook; [|discriminate].
    simpl in H.
    destruct (Array_filter (book_filter filters) books) as [rest|];
      [|discriminate].
    simpl in H. injection H as <-. destruct keep; [|by apply IH].
    simpl. rewrite Hbook. simpl. by rewrite (IH rest).
Qed.

Lemma filterBooks_idempotent_witness :
  filterBooks [dune] (Filters.mk (Str "du") (Str "any") (Str "any"))
  = Returns [dune].
Proof.
  apply (filterBooks_idempotent [dune; hobbit]
           (Filters.mk (Str "du") (Str "any") (Str "any")) [dune]).
  reflexivity.
Defined.

(** X22: the filter goes through a list book by book: on two lists put end
    to end, with a title in the criteria, it returns the results of the two
    lists put end to end. *)
Theorem filterBooks_append :
  ∀ books1 books2 t author genre,
    ∃ kept1 kept2,
      filterBooks books1 (Filters.mk (Str t) author genre) = Returns kept1 ∧
      filterBooks books2 (Filters.mk (Str t) author genre) = Returns kept2 ∧
      filterBooks (books1 ++ books2) (Filters.mk (Str t) author genre)
      = Returns (kept1 ++ kept2).
Proof.
  intros books1 books2 t author genre.
  destruct (filterBooks_title_returns books2 t author genre) as [kept2 E2].
  induction books1 as [|book books1 (kept1 & kept2' & E1 & E2' & E)].
  - exists [], kept2. by repeat split.
  - assert (kept2' = kept2) as -> by congruence.
    unfold filterBooks in *. simpl. rewrite book_filter_title. simpl.
    rewrite E1, E. simpl. eexists _, kept2. repeat split; [done|].
    by destruct (_ && _ && _).
Qed.

(** X23: the default option that [populateDropdown] puts in a dropdown,
    first after the options already there, carries the text given and the
    value that [filterBooks] takes for no constraint: with this value for the
    author and the genre and an empty title, every book is returned. *)
Theorem populateDropdown_default_option :
  ∀ container items defaultOptionText books,
    ∃ value,
      populateDropdown container items defaultOptionText !! length container
      = Some (value, defaultOptionText) ∧
      drop (S (length container))
           (populateDropdown container items defaultOptionText) = items ∧
      take (length container)
           (populateDropdown container items defaultOptionText) = container ∧
      filterBooks books (Filters.mk (Str "") (Str value) (Str value))
      = Returns books.
Proof.
  intros container items text books. exists "any". unfold populateDropdown.
  split; [|split; [|split]].
  - by rewrite list_lookup_middle.
  - rewrite cons_middle, app_assoc. apply drop_app_length'.
    rewrite length_app. simpl. lia.
  - by rewrite take_app_length.
  - unfold filterBooks. induction books as [|book books IH]; [done|].
    cbn [Array_filter]. by rewrite book_filter_title, IH.
Qed.

End filter_more.

(** ** Cards *)

Section cards.
Implicit Types (obj authors : registry) (book : Book.t).

Lemma property_found obj key name :
  NoDup (map fst obj) → In (key, name) obj → property obj key = Own name.
Proof.
  unfold property. induction obj as [|[k v] obj IH]; [done|].
  intros Hdup [[= -> ->]|Hin]; simpl.
  - by rewrite String.eqb_refl.
  - inversion Hdup as [|? ? Hnotin Hdup']; subst.
    destruct (String.eqb_spec k key) as [->|_]; [|by apply IH].
    destruct Hnotin. apply list_elem_of_In.
    by apply (in_map fst obj (key, name)).
Qed.

Lemma property_not_found obj key :
  (∀ name, ¬ In (key, name) obj) →
  property obj key =
  if existsb (String.eqb key) Object_prototype_names then Inherited key else Missing.
Proof.
  unfold property. induction obj as [|[k v] obj IH]; [done|]. intros H. simpl.
  destruct (String.eqb_spec k key) as [->|_].
  - destruct (H v). by left.
  - apply IH. intros name Hin. apply (H name). by right.
Qed.

(** X24: the author that [createBookElement] puts in the markup of a card
    is the entry of the registry (with keys all different) for the author
    of the book. Without such an entry it is [undefined], but for an author
    named as a member of [Object.prototype] ("constructor", "toString",
    ...): the card then gets that inherited member. *)
Theorem createBookElement_author :
  ∀ book authors,
    (∀ name,
       NoDup (map fst authors) → In (Book.author book, name) authors →
       Markup.author (Element.innerHTML (createBookElement book authors))
       = Own name) ∧
    ((∀ name, ¬ In (Book.author book, name) authors) →
     ¬ In (Book.author book) Object_prototype_names →
     Markup.author (Element.innerHTML (createBookElement book authors))
     = Missing) ∧
    ((∀ name, ¬ In (Book.author book, name) authors) →
     In (Book.author book) Object_prototype_names →
     Markup.author (Element.innerHTML (createBookElement book authors))
     = Inherited (Book.author book)).
Proof.
  intros book authors. split; [|split].
  - intros name Hdup Hin. simpl. by apply property_found.
  - intros Hmissing Hnames. simpl. rewrite property_not_found by done.
    destruct (existsb _ _) eqn:E; [|done].
    apply existsb_exists in E as (x & Hx & E). apply String.eqb_eq in E.
    by subst.
  - intros Hmissing Hnames. simpl. rewrite property_not_found by done.
    assert (existsb (String.eqb (Book.author book)) Object_prototype_names = true)
      as ->; [|done].
    apply existsb_exists. exists (Book.author book).
    by rewrite String.eqb_refl.
Qed.

Lemma createBookElement_author_witness :
  Markup.author
    (Element.innerHTML (createBookElement dune [("a1", "Frank Herbert")]))
  = Own "Frank Herbert" ∧
  Markup.author
    (Element.innerHTML (createBookElement hobbit [("a1", "Frank Herbert")]))
  = Missing ∧
  Markup.author
    (Element.innerHTML
       (createBookElement (Book.mk "6" "Odd" "constructor" "" "" "" [])
                          [("a1", "Frank Herbert")]))
  = Inherited "constructor".
Proof.
  split; [|split].
  - apply (proj1 (createBookElement_author dune [("a1", "Frank Herbert")])).
    + apply (bool_decide_unpack _). vm_compute. exact I.
    + by left.
  - apply (proj1 (proj2 (createBookElement_author hobbit [("a1", "Frank Herbert")]))).
    + intros name [H|[]]. discriminate H.
    + simpl. intuition discriminate.
  - apply (proj2 (proj2 (createBookElement_author
                           (Book.mk "6" "Odd" "constructor" "" "" "" [])
                           [("a1", "Frank Herbert")]))).
    + intros name [H|[]]. discriminate H.
    + by left.
Defined.

End cards.

(** ** Clicks on "show more" *)

Section clicks.
Implicit Types (st : State) (ev : event).

(** No handler adds or removes a listener. *)
Lemma handle_listeners ev st :
  Document.listeners (document (handle ev st).1) = Document.listeners (document st).
Proof.
  destruct ev; try reflexivity; simpl.
  - unfold handleSearch. simpl.
    by destruct (filterBooks (BookApp.books (this st)) filters).
  - unfold showBookPreview.
    by destruct (find_active (BookApp.books (this st)) None pathArray).
  - unfold handleThemeChange. simpl.
    by destruct (strict_eq theme (Str "night")).
Qed.

(** The two runs of [init] leave every listener twice on the page. *)
Lemma script_listeners books authors genres n d :
  Document.listeners (document (script books authors genres n d)) =
  (Document.listeners d ++ listeners_of_setup) ++ listeners_of_setup.
Proof. destruct d as [? ? ? ? ? ? ? ? ? ? ? [] ?]; reflexivity. Qed.

Lemma reachable_listeners books authors genres n d st :
  Document.listeners d = [] →
  reachable (script books authors genres n d) st →
  Document.listeners (document st) = listeners_of_setup ++ listeners_of_setup.
Proof.
  intros Hd Hst. induction Hst as [|st ev _ IH].
  - by rewrite script_listeners, Hd.
  - by rewrite handle_listeners.
Qed.

Lemma dispatch_show_more_twice st :
  Document.listeners (document st) = listeners_of_setup ++ listeners_of_setup →
  Button.disabled (Document.list_button (document st)) = false →
  dispatch ShowMoreClicked st =
  (showMoreBooks (showMoreBooks st), [Returns tt; Returns tt]).
Proof.
  intros Hl Hdisabled. unfold dispatch, delivered. by rewrite Hdisabled, Hl.
Qed.

Lemma dispatch_show_more_disabled st :
  Button.disabled (Document.list_button (document st)) = true →
  dispatch ShowMoreClicked st = (st, []).
Proof. intros Hdisabled. unfold dispatch, delivered. by rewrite Hdisabled. Qed.

(** One run of [showMoreBooks] takes one page off the number the button
    shows, and never below 0. *)
Lemma showMoreBooks_remaining st :
  0 ≤ BookApp.booksPerPage (this st) →
  button_in_sync st →
  Button.remaining (Document.list_button (document (showMoreBooks st)))
  = Z.max 0 (Button.remaining (Document.list_button (document st))
             - BookApp.booksPerPage (this st)).
Proof.
  intros Hsize ->. simpl. unfold updateShowMoreButton. simpl.
  set (len := length_of (BookApp.matches (this st))).
  set (page := BookApp.page (this st)).
  set (size := BookApp.booksPerPage (this st)) in *.
  destruct (Z.gtb_spec (len - (page + 1) * size) 0),
           (Z.gtb_spec (len - page * size) 0); lia.
Qed.

(** C7, on the code: every listener is on the page twice, in every state of
    a session, so one click on the enabled button runs [showMoreBooks]
    twice: it adds the cards of the next page and those of the page after
    it, and adds 2 to the page number. On five books, two per page, the
    first click shows the three books left and moves the page number from 1
    to 3. *)
Theorem click_runs_showMoreBooks_twice :
  (∀ books authors genres n d st,
     Document.listeners d = [] →
     reachable (script books authors genres n d) st →
     Document.listeners (document st) = listeners_of_setup ++ listeners_of_setup) ∧
  (∀ st,
     Document.listeners (document st) = listeners_of_setup ++ listeners_of_setup →
     Button.disabled (Document.list_button (document st)) = false →
     1 ≤ BookApp.page (this st) →
     0 < BookApp.booksPerPage (this st) →
     ∃ st' batch1 batch2,
       dispatch ShowMoreClicked st = (st', [Returns tt; Returns tt]) ∧
       Spec.is_nextPageSlice (BookApp.matches (this st)) (BookApp.page (this st))
                             (BookApp.booksPerPage (this st)) batch1 ∧
       Spec.is_nextPageSlice (BookApp.matches (this st)) (BookApp.page (this st) + 1)
                             (BookApp.booksPerPage (this st)) batch2 ∧
       Document.list_items (document st') =
         Document.list_items (document st)
         ++ map (λ book, createBookElement book (BookApp.authors (this st))) batch1
         ++ map (λ book, createBookElement book (BookApp.authors (this st))) batch2 ∧
       BookApp.page (this st') = BookApp.page (this st) + 2) ∧
  (let st' := (dispatch ShowMoreClicked five_books).1 in
   Spec.canShowMore (length_of (BookApp.matches (this five_books)))
                    (BookApp.page (this five_books))
                    (BookApp.booksPerPage (this five_books)) ∧
   BookApp.page (this five_books) = 1 ∧
   BookApp.page (this st') = 3 ∧
   Document.list_items (document st') =
     Document.list_items (document five_books)
     ++ map (λ book, createBookElement book (BookApp.authors (this five_books)))
            [emma; ulysses; walden]).
Proof.
  split; [|split].
  - intros. by eapply reachable_listeners.
  - intros st Hl Hdisabled Hpage Hsize.
    eexists _, _, _. split; [by apply dispatch_show_more_twice|].
    split; [by apply slice_is_nextPageSlice|].
    split; [apply slice_is_nextPageSlice; lia|].
    split; [|simpl; lia].
    unfold showMoreBooks, cards. simpl. by rewrite <- app_assoc.
  - cbv zeta. split; [vm_compute; reflexivity|].
    split; [vm_compute; reflexivity|].
    split; vm_compute; reflexivity.
Qed.

Lemma click_runs_showMoreBooks_twice_witness :
  ∃ st' batch1 batch2,
    dispatch ShowMoreClicked five_books = (st', [Returns tt; Returns tt]) ∧
    Spec.is_nextPageSlice (BookApp.matches (this five_books))
      (BookApp.page (this five_books)) (BookApp.booksPerPage (this five_books))
      batch1 ∧
    Spec.is_nextPageSlice (BookApp.matches (this five_books))
      (BookApp.page (this five_books) + 1) (BookApp.booksPerPage (this five_books))
      batch2 ∧
    Document.list_items (document st') =
      Document.list_items (document five_books)
      ++ map (λ book, createBookElement book (BookApp.authors (this five_books)))
             batch1
      ++ map (λ book, createBookElement book (BookApp.authors (this five_books)))
             batch2 ∧
    BookApp.page (this st') = BookApp.page (this five_books) + 2.
Proof.
  apply (proj1 (proj2 click_runs_showMoreBooks_twice) five_books);
    vm_compute; (reflexivity || discriminate).
Defined.



(** X25: when the button is set for the session, one click on "show more"
    takes two pages off the number the button shows, one for each of the two
    listeners, and never below 0; on the disabled button, which shows 0, it
    changes nothing. *)
Theorem click_counts_down :
  ∀ st,
    Document.listeners (document st) = listeners_of_setup ++ listeners_of_setup →
    0 ≤ BookApp.booksPerPage (this st) →
    button_in_sync st →
    Button.remaining
      (Document.list_button (document (dispatch ShowMoreClicked st).1))
    = Z.max 0 (Button.remaining (Document.list_button (document st))
               - 2 * BookApp.booksPerPage (this st)).
Proof.
  intros st Hl Hsize Hsync.
  destruct (Button.disabled (Document.list_button (document st))) eqn:Hdisabled.
  - rewrite dispatch_show_more_disabled by done. simpl.
    rewrite Hsync in Hdisabled |- *. revert Hdisabled.
    unfold updateShowMoreButton. simpl. intros Hle%Z.leb_le.
    destruct (Z.gtb_spec (length_of (BookApp.matches (this st))
                          - BookApp.page (this st) * BookApp.booksPerPage (this st))
                         0); lia.
  - rewrite dispatch_show_more_twice by done. cbn [fst].
    rewrite (showMoreBooks_remaining (showMoreBooks st));
      [|exact Hsize|reflexivity].
    rewrite (showMoreBooks_remaining st) by done.
    change (BookApp.booksPerPage (this (showMoreBooks st)))
      with (BookApp.booksPerPage (this st)).
    lia.
Qed.

Lemma click_counts_down_witness :
  Button.remaining
    (Document.list_button (document (dispatch ShowMoreClicked five_books).1))
  = Z.max 0 (Button.remaining (Document.list_button (document five_books))
             - 2 * BookApp.booksPerPage (this five_books)).
Proof.
  apply (click_counts_down five_books).
  - vm_compute. reflexivity.
  - vm_compute. discriminate.
  - unfold button_in_sync. vm_compute. reflexivity.
Defined.

End clicks.
